(** * forecast_index: FMRC-style indexing of a forecast data cube

    A shallow embedding of [forecast_index.py]: the four indexer types
    ([ModelRun], [ConstantOffset], [ConstantForecast], [BestEstimate]) and
    the dispatcher [ForecastIndex.sel], followed by the properties of the
    specification that concern them.

    Timestamps and timedeltas are the signed nanosecond counts that pandas
    stores ([Z]); an axis ([pd.DatetimeIndex], [pd.TimedeltaIndex]) is the
    list of its values in position order.  Python exceptions are the
    [Raise] results of a small error monad. *)

From Stdlib Require Import ZArith List Lia Bool.
From stdpp Require Import base option list gmap strings fin_maps.

Local Open Scope Z_scope.

(** ** Exceptions and the error monad *)

(** The message of each [raise ValueError] site of the module (and of the
    numpy calls it makes), so that the sites stay distinguishable. *)
Inductive message :=
  | CannotCombineWithNames      (* sel: dummy_name in labels and len(labels) != 1 *)
  | CannotCombineWithFMRC       (* sel: axis name together with dummy_name *)
  | PeriodDoesNotStartAtZero    (* BestEstimate.get_indexer *)
  | SinceEarlierThanAsof        (* BestEstimate.__post_init__ *)
  | InvalidIndexerType          (* sel: case _ *)
  | NegativeDimensions          (* np.zeros of a negative shape *)
  | ShapeMismatch               (* adding arrays of different lengths *)
  | UnpackMismatch.             (* (x,) = ... with a length other than 1 *)

Inductive exn :=
  | KeyError
  | IndexError
  | AttributeError
  | AssertionError
  | TypeError
  | InvalidIndexError
  | OutOfBoundsDatetime
  | ValueError (m : message).

Inductive result (A : Type) :=
  | Ok (a : A)
  | Raise (e : exn).
Arguments Ok {A} a.
Arguments Raise {A} e.

#[global] Instance result_ret : MRet result := fun _ a => Ok a.
#[global] Instance result_bind : MBind result := fun _ _ f m =>
  match m with
  | Ok a => f a
  | Raise e => Raise e
  end.

(** The error kinds of the specification (section 7) and the exceptions
    that stand for them. *)
Inductive error_kind := NotFound | InvalidConfiguration | UnsupportedSelectorType.

Definition kind_of (e : exn) : option error_kind :=
  match e with
  | KeyError => Some NotFound
  | ValueError CannotCombineWithNames
  | ValueError CannotCombineWithFMRC
  | ValueError PeriodDoesNotStartAtZero
  | ValueError SinceEarlierThanAsof => Some InvalidConfiguration
  | ValueError InvalidIndexerType => Some UnsupportedSelectorType
  | _ => None
  end.

(** ** Time *)

Definition ns_per_hour : Z := 3600000000000.

Definition hours (h : Z) : Z := h * ns_per_hour.

(** [Timestamp.hour] / [DatetimeIndex.hour]: hour of the day, 0..23. *)
Definition hour (t : Z) : Z := (t `div` ns_per_hour) `mod` 24.

(** The nanosecond counts that a [Timestamp] can hold: those of int64
    but the least one, which pandas keeps for NaT. *)
Definition timestamp_max : Z := 9223372036854775807.

Definition timestamp_min : Z := - timestamp_max.

Definition in_bounds (t : Z) : bool :=
  (timestamp_min <=? t) && (t <=? timestamp_max).

(** [Timestamp - Timedelta]: a difference outside the bounds raises
    [OutOfBoundsDatetime]. *)
Definition timestamp_sub (t d : Z) : result Z :=
  if in_bounds (t - d) then Ok (t - d) else Raise OutOfBoundsDatetime.

Inductive Model := HRRR.

(** [model is Model.HRRR] *)
Definition is_HRRR (model : option Model) : bool :=
  match model with Some HRRR => true | None => false end.

(** ** numpy helpers *)

(** [np.arange(a, b)] *)
Definition arange (a b : Z) : list Z :=
  map (fun k => a + Z.of_nat k) (seq 0 (Z.to_nat (b - a))).

(** [np.repeat(x, n)] *)
Definition np_repeat (x : Z) (n : Z) : list Z := repeat x (Z.to_nat n).

(** [np.zeros((n,), dtype=int)]: a negative dimension is refused. *)
Definition np_zeros (n : Z) : result (list Z) :=
  if n <? 0 then Raise (ValueError NegativeDimensions)
  else Ok (repeat 0 (Z.to_nat n)).

(** [arr[mask]] for a boolean mask of the same length. *)
Fixpoint boolean_index {A} (arr : list A) (mask : list bool) : list A :=
  match arr, mask with
  | x :: arr', b :: mask' =>
      if b then x :: boolean_index arr' mask' else boolean_index arr' mask'
  | _, _ => []
  end.

(** Element-wise [m1 & m2]. *)
Fixpoint mask_and (m1 m2 : list bool) : list bool :=
  match m1, m2 with
  | a :: m1', b :: m2' => (a && b) :: mask_and m1' m2'
  | _, _ => []
  end.

(** ** Positional selectors and axis indexing *)

(** What the indexer types hand back for one axis: a scalar position
    (possibly negative), a [slice(start, stop)] or a position array. *)
Inductive indexer :=
  | IInt (i : Z)
  | ISlice (start stop : option Z)
  | IArray (a : list Z).

(** [slice(None)] *)
Definition slice_all : indexer := ISlice None None.

(** The value of [axis[ix]]: a scalar or a sequence of values. *)
Inductive indexed :=
  | Scalar (v : Z)
  | Values (vs : list Z).

(** Python's handling of one integer position on a sequence of length
    [n]: negative positions count from the end, anything outside
    [-n, n) raises [IndexError]. *)
Definition norm_index (n : nat) (i : Z) : result nat :=
  if (0 <=? i) && (i <? Z.of_nat n) then Ok (Z.to_nat i)
  else if (- Z.of_nat n <=? i) && (i <? 0) then Ok (Z.to_nat (i + Z.of_nat n))
  else Raise IndexError.

Definition getitem_int (axis : list Z) (i : Z) : result Z :=
  k ← norm_index (length axis) i;
  match axis !! k with
  | Some v => Ok v
  | None => Raise IndexError
  end.

(** One bound of [slice.indices(n)] for step 1. *)
Definition clamp_bound (n : nat) (b : Z) : nat :=
  if b <? 0 then Z.to_nat (Z.max 0 (b + Z.of_nat n))
  else Z.to_nat (Z.min b (Z.of_nat n)).

Definition slice_bounds (n : nat) (start stop : option Z) : nat * nat :=
  (from_option (clamp_bound n) 0%nat start,
   from_option (clamp_bound n) n stop).

(** [axis[start:stop]] *)
Definition getitem_slice {A} (axis : list A) (start stop : option Z) : list A :=
  let '(lo, hi) := slice_bounds (length axis) start stop in
  take (hi - lo) (drop lo axis).

Fixpoint getitem_array (axis : list Z) (a : list Z) : result (list Z) :=
  match a with
  | [] => Ok []
  | i :: a' =>
      v ← getitem_int axis i;
      vs ← getitem_array axis a';
      Ok (v :: vs)
  end.

(** [axis[ix]] *)
Definition getitem (axis : list Z) (ix : indexer) : result indexed :=
  match ix with
  | IInt i => v ← getitem_int axis i; Ok (Scalar v)
  | ISlice start stop => Ok (Values (getitem_slice axis start stop))
  | IArray a => vs ← getitem_array axis a; Ok (Values vs)
  end.

(** The positions an indexer selects on an axis of length [n], in order. *)
Definition positions (n : nat) (ix : indexer) : result (list nat) :=
  match ix with
  | IInt i => k ← norm_index n i; Ok [k]
  | ISlice start stop =>
      let '(lo, hi) := slice_bounds n start stop in Ok (seq lo (hi - lo))
  | IArray a => mapM (norm_index n) a
  end.

(** ** The host axis type (pandas [Index]) *)

(** Position of the first occurrence of [x]. *)
Fixpoint position (x : Z) (axis : list Z) : option nat :=
  match axis with
  | [] => None
  | y :: axis' => if x =? y then Some 0%nat else S <$> position x axis'
  end.

(** [index.get_loc(x)]: the position of [x], [KeyError] when [x] is not a
    label of the axis.  This is the answer on an axis of unique labels,
    which is what the data model prescribes; the statements below that
    depend on it assume [NoDup]. *)
Definition get_loc (axis : list Z) (x : Z) : result Z :=
  match position x axis with
  | Some k => Ok (Z.of_nat k)
  | None => Raise KeyError
  end.

(** [index.get_indexer(targets)]: for every target its position, or -1
    when it is not a label.  An axis with repeated labels is refused with
    [InvalidIndexError]. *)
Definition get_indexer (axis : list Z) (targets : list Z) : result (list Z) :=
  if bool_decide (NoDup axis) then
    Ok (map (fun x => match position x axis with
                      | Some k => Z.of_nat k
                      | None => -1
                      end) targets)
  else Raise InvalidIndexError.

Inductive side := Left | Right.

(** Number of leading elements that satisfy [p]. *)
Fixpoint count_while (p : Z -> bool) (axis : list Z) : nat :=
  match axis with
  | [] => 0%nat
  | y :: axis' => if p y then S (count_while p axis') else 0%nat
  end.

(** [index.get_slice_bound(label, side)] on a monotonically increasing
    axis: the insertion point of [label], before ([Left]) or after
    ([Right]) the labels equal to it. *)
Definition get_slice_bound (axis : list Z) (label : Z) (s : side) : Z :=
  match s with
  | Left => Z.of_nat (count_while (fun y => y <? label) axis)
  | Right => Z.of_nat (count_while (fun y => y <=? label) axis)
  end.

(** [index.size] *)
Definition size_of (axis : list Z) : Z := Z.of_nat (length axis).

(** ** Indexer types *)

Module ModelRun.

Record t := { time : Z }.

Definition get_indexer (self : t) (model : option Model)
    (time_index period_index : list Z) : result (indexer * indexer) :=
  time_idxr ← get_loc time_index (time self);
  let period_idxr := slice_all in
  let period_idxr :=
    if is_HRRR model && negb (hour (time self) `mod` 6 =? 0)
    then ISlice None (Some 19)
    else period_idxr in
  Ok (IInt time_idxr, period_idxr).

End ModelRun.

Module ConstantOffset.

Record t := { step : Z }.

(** [self.step.total_seconds()], counted in microseconds: pandas adds up
    the days, seconds and microseconds of the step and leaves its
    nanoseconds out. *)
Definition total_microseconds (self : t) : Z := step self `div` 1000.

(** [self.step.total_seconds() / 3600 > 18]; the float quotient is above
    18 exactly when the step, cut to whole microseconds, is longer than
    eighteen hours. *)
Definition beyond_18h (self : t) : bool :=
  18 * 3600 * 1000000 <? total_microseconds self.

Definition get_indexer (self : t) (model : option Model)
    (time_index period_index : list Z) : result (indexer * indexer) :=
  let time_idxr := slice_all in
  idxs ← get_indexer period_index [step self];
  period_idxr ← match idxs with
                | [p] => Ok p
                | _ => Raise (ValueError UnpackMismatch)
                end;
  let time_idxr :=
    if is_HRRR model && beyond_18h self then
      (* ones, then False wherever hour % 6 != 0 *)
      let model_mask := map (fun t => hour t `mod` 6 =? 0) time_index in
      IArray (boolean_index (arange 0 (size_of time_index)) model_mask)
    else time_idxr in
  Ok (time_idxr, IInt period_idxr).

End ConstantOffset.

Module ConstantForecast.

Record t := { time : Z }.

(** The entry of [model_mask] for one candidate: under HRRR it is set
    to False when [(hour != 6) & (step > 18h)]. *)
Definition model_keeps (model : option Model) (t step : Z) : bool :=
  if is_HRRR model
  then negb (negb (hour t =? 6) && (hours 18 <? step))
  else true.

Definition get_indexer (self : t) (model : option Model)
    (time_index period_index : list Z) : result (indexer * indexer) :=
  let target := time self in
  max_timedelta ← getitem_int period_index (-1);
  earliest ← timestamp_sub target max_timedelta;
  let left := get_slice_bound time_index earliest Left in
  let right := get_slice_bound time_index target Right in
  let needed_times := getitem_slice time_index (Some left) (Some right) in
  let needed_steps := map (fun t => target - t) needed_times in
  let needed_time_idxs := arange left right in
  needed_step_idxs ← get_indexer period_index needed_steps;
  let model_mask :=
    map (fun ts => model_keeps model ts.1 ts.2)
        (zip needed_times needed_steps) in
  let mask := map (fun i => negb (i =? -1)) needed_step_idxs in
  let keep := mask_and model_mask mask in
  let needed_step_idxs := boolean_index needed_step_idxs keep in
  let needed_time_idxs := boolean_index needed_time_idxs keep in
  if negb (length needed_step_idxs =? length needed_time_idxs)%nat
  then Raise AssertionError
  else Ok (IArray needed_time_idxs, IArray needed_step_idxs).

End ConstantForecast.

Module BestEstimate.

(** The dataclass has the single field [asof]; [since] is commented
    out in the source. *)
Record t := { asof : option Z }.

(** Attribute access [self.<name>]. *)
Definition getattr (self : t) (name : string) : result (option Z) :=
  if String.eqb name "asof" then Ok (asof self) else Raise AttributeError.

Definition post_init (self : t) : result unit :=
  a ← getattr self "asof";
  match a with
  | None => Ok tt
  | Some a =>
      a' ← getattr self "asof";
      since ← getattr self "since";
      match a', since with
      | Some x, Some y =>
          if x <? y then Raise (ValueError SinceEarlierThanAsof) else Ok tt
      | _, _ => Raise TypeError
      end
  end.

(** [BestEstimate(asof=...)]: the generated [__init__] stores the field
    and calls [__post_init__]. *)
Definition new (asof : option Z) : result t :=
  let self := {| asof := asof |} in
  _ ← post_init self;
  Ok self.

Definition get_indexer (self : t) (model : option Model)
    (time_index period_index : list Z) : result (indexer * indexer) :=
  p0 ← getitem_int period_index 0;
  if negb (p0 =? 0) then Raise (ValueError PeriodDoesNotStartAtZero)
  else
    let first_index := 0 in
    last_index ← match asof self with
                 | None => Ok (size_of time_index - 1)
                 | Some a => get_loc time_index a
                 end;
    nsteps ← (if is_HRRR model then
                t ← getitem_int time_index last_index;
                Ok (if negb (hour t `mod` 6 =? 0) then 19
                    else size_of period_index)
              else Ok (size_of period_index));
    let needed_time_idxrs :=
      arange first_index last_index ++ np_repeat last_index nsteps in
    zeros ← np_zeros (last_index - first_index);
    let needed_step_idxrs := zeros ++ arange 0 nsteps in
    Ok (IArray needed_time_idxrs, IArray needed_step_idxrs).

End BestEstimate.

(** ** The index and its selection results *)

(** [PandasIndex]: the wrapped pandas index and its name. *)
Record PandasIndex := { index : list Z; name : string }.

Record Indexes := { reference_time : PandasIndex; period : PandasIndex }.

(** [Indexes.get_names], as the pair (reference_time name, period name). *)
Definition get_names (self : Indexes) : string * string :=
  (name (reference_time self), name (period self)).

(** An ordinary selector of plain per-axis selection. *)
Inductive plain_selector :=
  | PLabel (v : Z)
  | PSlice (start stop : option Z)
  | PList (vs : list Z).

(** The values a request can bind to a key: one of the four indexer
    types, or any other object.  Of another object only two things
    matter to [sel]: whether it has a [get_indexer] attribute, and what
    that returns. *)
Inductive label :=
  | LConstantOffset (q : ConstantOffset.t)
  | LModelRun (q : ModelRun.t)
  | LConstantForecast (q : ConstantForecast.t)
  | LBestEstimate (q : BestEstimate.t)
  | LPlain (s : plain_selector)
  | LDuck (get_indexer :
             option Model -> list Z -> list Z -> result (indexer * indexer)).

(** [xr.Variable(dims, data, attrs)] *)
Record XrVariable := {
  dims : string;
  data : indexed;
  attrs : list (string * string)
}.

(** A value of [dim_indexers]: a raw positional selector, or a position
    array wrapped in a variable that names the dimension of the result. *)
Inductive dim_indexer :=
  | Raw (ix : indexer)
  | Along (dim : string) (a : list Z).

(** [a + b] on datetime and timedelta values, a scalar broadcast against
    a sequence. *)
Definition add_indexed (a b : indexed) : result indexed :=
  match a, b with
  | Scalar x, Scalar y => Ok (Scalar (x + y))
  | Scalar x, Values ys => Ok (Values (map (fun y => x + y) ys))
  | Values xs, Scalar y => Ok (Values (map (fun x => x + y) xs))
  | Values xs, Values ys =>
      if (length xs =? length ys)%nat
      then Ok (Values (zip_with Z.add xs ys))
      else Raise (ValueError ShapeMismatch)
  end.

Module ForecastIndex.

Record t := {
  _indexes : Indexes;
  dummy_name : string;
  model : option Model
}.

(** [self.names] *)
Definition names (self : t) : string * string := get_names (_indexes self).

(** A value of [indexes] in a selection result. *)
Inductive index_value :=
  | Pandas (values : indexed) (dim : string)
  | Forecast (fi : t).

Record IndexSelResult := {
  dim_indexers : gmap string dim_indexer;
  indexes : gmap string index_value;
  variables : gmap string XrVariable;
  drop_coords : list string
}.

(** [label.get_indexer(model, time_index, period_index)] *)
Definition label_get_indexer (l : label) (model : option Model)
    (time_index period_index : list Z) : result (indexer * indexer) :=
  match l with
  | LConstantOffset q => ConstantOffset.get_indexer q model time_index period_index
  | LModelRun q => ModelRun.get_indexer q model time_index period_index
  | LConstantForecast q => ConstantForecast.get_indexer q model time_index period_index
  | LBestEstimate q => BestEstimate.get_indexer q model time_index period_index
  | LPlain _ => Raise AttributeError
  | LDuck gi => gi model time_index period_index
  end.

(** [xr.Variable(dim, idxr)] for an indexer the strategy returned. *)
Definition as_variable (dim : string) (ix : indexer) : dim_indexer :=
  match ix with
  | IArray a => Along dim a
  | _ => Raw ix
  end.

(** [isinstance(label, ConstantForecast)] *)
Definition is_ConstantForecast (l : label) : bool :=
  match l with LConstantForecast _ => true | _ => false end.

Section Sel.

(** The host: single-axis selection of [PandasIndex], indexing of a
    [PandasIndex] by a resolved selector, and the merge of results. *)
Variable pandas_sel : PandasIndex -> string -> label -> result IndexSelResult.
Variable pandas_getitem : PandasIndex -> dim_indexer -> result PandasIndex.
Variable merge_sel_results : list IndexSelResult -> result IndexSelResult.

(** Plain selection along one axis, when its name is a key. *)
Definition sel_axis (labels : gmap string label) (axis_name : string)
    (axis : PandasIndex) : result (list IndexSelResult * PandasIndex) :=
  match labels !! axis_name with
  | Some l =>
      res ← pandas_sel axis axis_name l;
      match dim_indexers res !! axis_name with
      | Some idxr =>
          axis' ← pandas_getitem axis idxr;
          Ok ([res], axis')
      | None => Raise KeyError
      end
  | None => Ok ([], axis)
  end.

Definition sel_plain (self : t) (labels : gmap string label)
    (time_name period_name : string) : result IndexSelResult :=
  if bool_decide (is_Some (labels !! dummy_name self))
  then Raise (ValueError CannotCombineWithFMRC)
  else
    '(res_t, new_t) ← sel_axis labels time_name (reference_time (_indexes self));
    '(res_p, new_p) ← sel_axis labels period_name (period (_indexes self));
    let new_indexes := {| reference_time := new_t; period := new_p |} in
    let new_index :=
      {| _indexes := new_indexes; dummy_name := dummy_name self;
         model := model self |} in
    let last :=
      {| dim_indexers := ∅;
         indexes := <[period_name := Forecast new_index]>
                    (<[time_name := Forecast new_index]>
                     {[ dummy_name self := Forecast new_index ]});
         variables := ∅;
         drop_coords := [] |} in
    merge_sel_results (res_t ++ res_p ++ [last]).

(** The [match label:] statement: indexers, replaced indexes and the
    dimension of the derived valid time ([None] for ConstantForecast,
    which leaves [valid_time_dim] unset). *)
Definition sel_match (self : t) (l : label) (time_name period_name : string)
    (time_idxr period_idxr : indexer)
  : result (gmap string dim_indexer * gmap string index_value * option string) :=
  match l with
  | LConstantOffset _ =>
      let indexer := <[period_name := Raw period_idxr]>
                     (<[time_name := Raw time_idxr]> ∅) in
      rt ← getitem (index (reference_time (_indexes self))) time_idxr;
      Ok (indexer, <[time_name := Pandas rt time_name]> ∅, Some time_name)
  | LModelRun _ =>
      let indexer := <[period_name := Raw period_idxr]>
                     (<[time_name := Raw time_idxr]> ∅) in
      p ← getitem (index (period (_indexes self))) period_idxr;
      Ok (indexer, <[period_name := Pandas p period_name]> ∅, Some period_name)
  | LConstantForecast _ =>
      let indexer := <[period_name := as_variable time_name period_idxr]>
                     (<[time_name := as_variable time_name time_idxr]> ∅) in
      rt ← getitem (index (reference_time (_indexes self))) time_idxr;
      Ok (indexer, <[time_name := Pandas rt time_name]> ∅, None)
  | LBestEstimate _ =>
      let indexer := <[period_name := as_variable "valid_time" period_idxr]>
                     (<[time_name := as_variable "valid_time" time_idxr]> ∅) in
      Ok (indexer, ∅, Some "valid_time"%string)
  | _ => Raise (ValueError InvalidIndexerType)
  end.

(** FMRC-style indexing with the value bound to the dummy name. *)
Definition sel_forecast (self : t) (l : label)
    (time_name period_name : string) : result IndexSelResult :=
  let time_index := index (reference_time (_indexes self)) in
  let period_index := index (period (_indexes self)) in
  '(time_idxr, period_idxr) ←
    label_get_indexer l (model self) time_index period_index;
  '(indexer, indexes, valid_time_dim) ←
    sel_match self l time_name period_name time_idxr period_idxr;
  if negb (is_ConstantForecast l) then
    ts ← getitem time_index time_idxr;
    ps ← getitem period_index period_idxr;
    valid_time ← add_indexed ts ps;
    let dim := default "valid_time"%string valid_time_dim in
    Ok {| dim_indexers := indexer;
          indexes := <["valid_time"%string := Pandas valid_time dim]> indexes;
          variables :=
            {[ "valid_time"%string :=
                 {| dims := dim; data := valid_time;
                    attrs := [("standard_name", "time")]%string |} ]};
          drop_coords := ["forecast"%string] |}
  else
    Ok {| dim_indexers := indexer;
          indexes := indexes;
          variables := ∅;
          drop_coords := ["forecast"%string] |}.

Definition sel (self : t) (labels : gmap string label) : result IndexSelResult :=
  if bool_decide (is_Some (labels !! dummy_name self))
     && negb (size labels =? 1)%nat
  then Raise (ValueError CannotCombineWithNames)
  else
    let '(time_name, period_name) := names self in
    if bool_decide (is_Some (labels !! time_name))
       || bool_decide (is_Some (labels !! period_name))
    then sel_plain self labels time_name period_name
    else
      (* assert len(labels) == 1; assert the key is dummy_name *)
      match map_to_list labels with
      | [(key, l)] =>
          if negb (String.eqb key (dummy_name self)) then Raise AssertionError
          else sel_forecast self l time_name period_name
      | _ => Raise AssertionError
      end.

End Sel.

End ForecastIndex.

(** ** The data model *)

(** An axis is an ordered sequence of unique values, monotonically
    increasing. *)
Fixpoint increasing (axis : list Z) : bool :=
  match axis with
  | x :: (y :: _) as axis' => (x <? y) && increasing axis'
  | _ => true
  end.

(** A scalar position. *)
Definition is_int (ix : indexer) : bool :=
  match ix with IInt _ => true | _ => false end.

(** The values an [indexed] holds, a scalar as a single element. *)
Definition elements (d : indexed) : list Z :=
  match d with
  | Scalar v => [v]
  | Values vs => vs
  end.

(** The positions a value of [dim_indexers] selects. *)
Definition selector_positions (n : nat) (d : dim_indexer) : result (list nat) :=
  match d with
  | Raw ix => positions n ix
  | Along _ a => positions n (IArray a)
  end.

(** The position paired with the [k]-th element of the result: a scalar
    selector is broadcast. *)
Definition pick (d : dim_indexer) (ps : list nat) (k : nat) : option nat :=
  match d with
  | Raw (IInt _) => ps !! 0%nat
  | _ => ps !! k
  end.

(** The availability rule of a model run: the number of periods the run
    issued at [r] retains, [None] when it retains the whole axis. *)
Definition retained_count (model : option Model) (r : Z) : option Z :=
  if is_HRRR model && negb (hour r `mod` 6 =? 0) then Some 19 else None.

(** The scenario of the specification: hourly reference times 00:00 to
    23:00 of the day number [d], hourly periods 0h to 48h. *)
Definition scenario_times (d : Z) : list Z :=
  map (fun k => hours (24 * d) + hours (Z.of_nat k)) (seq 0 24).

Definition scenario_periods : list Z :=
  map (fun k => hours (Z.of_nat k)) (seq 0 49).

(** The pairs (reference-time position, period position) that
    ConstantForecast keeps among the candidate reference times [ts], the
    first of which sits at position [a]: a candidate stays when the step
    to the target is a label of the period axis and the model mask keeps
    it. *)
Fixpoint kept_pairs (model : option Model) (period_index : list Z) (target : Z)
    (a : Z) (ts : list Z) : list (Z * Z) :=
  match ts with
  | [] => []
  | t :: ts' =>
      let rest := kept_pairs model period_index target (a + 1) ts' in
      match position (target - t) period_index with
      | Some j =>
          if ConstantForecast.model_keeps model t (target - t)
          then (a, Z.of_nat j) :: rest
          else rest
      | None => rest
      end
  end.

(** The candidate window of ConstantForecast: the positions of the
    reference times from [target - max_timedelta] up to [target]. *)
Definition window (time_index : list Z) (earliest target : Z) : nat * nat :=
  (count_while (fun y => y <? earliest) time_index,
   count_while (fun y => y <=? target) time_index).

(** A host instance used to run the dispatcher on concrete requests:
    plain selection by exact label, indexing by position, and a merge
    that keeps the last result. *)
Definition exact_sel (axis : PandasIndex) (axis_name : string) (l : label)
  : result ForecastIndex.IndexSelResult :=
  match l with
  | LPlain (PLabel v) =>
      k ← get_loc (index axis) v;
      Ok {| ForecastIndex.dim_indexers := {[ axis_name := Raw (IInt k) ]};
            ForecastIndex.indexes := ∅;
            ForecastIndex.variables := ∅;
            ForecastIndex.drop_coords := [] |}
  | _ => Raise TypeError
  end.

Definition exact_getitem (axis : PandasIndex) (d : dim_indexer) : result PandasIndex :=
  match d with
  | Raw ix =>
      vs ← getitem (index axis) ix;
      Ok {| index := elements vs; name := name axis |}
  | Along _ a =>
      vs ← getitem_array (index axis) a;
      Ok {| index := vs; name := name axis |}
  end.

Definition last_result (rs : list ForecastIndex.IndexSelResult)
  : result ForecastIndex.IndexSelResult :=
  match last rs with
  | Some r => Ok r
  | None => Raise (ValueError ShapeMismatch)
  end.

(** The index of a cube with axes "time" and "step" and the dummy
    variable "forecast". *)
Definition cube (model : option Model) (times periods : list Z) : ForecastIndex.t :=
  {| ForecastIndex._indexes :=
       {| reference_time := {| index := times; name := "time" |};
          period := {| index := periods; name := "step" |} |};
     ForecastIndex.dummy_name := "forecast";
     ForecastIndex.model := model |}.

(** A cube with two reference times and two periods, an hour apart. *)
Definition small_cube (model : option Model) : ForecastIndex.t :=
  cube model [0; hours 1] [0; hours 1].

(** ** Construction from coordinate variables *)

(** What [from_variables] reads of a coordinate variable: the CF
    attribute [standard_name], the number of dimensions and the values. *)
Record CoordVariable := {
  standard_name : option string;
  ndim : nat;
  var_values : list Z
}.

(** The exceptions that end [from_variables]. *)
Inductive init_exn :=
  | InitAssertionError        (* assert len(variables) == 3 *)
  | InitValueError            (* PandasIndex.from_variables on a variable that is not 1-D *)
  | InitTypeError             (* Indexes built from indexes with a missing field *)
  | InitUnboundLocalError.    (* dummy_name was never assigned *)

Inductive init_result (A : Type) :=
  | Built (a : A)
  | Failed (e : init_exn).
Arguments Built {A} a.
Arguments Failed {A} e.

(** [PandasIndex.from_variables({name: var}, options={})]: a
    one-dimensional variable becomes an index that carries the name of
    the variable; any other variable is refused. *)
Definition PandasIndex_from_variables (var_name : string) (var : CoordVariable)
  : init_result PandasIndex :=
  if (ndim var =? 1)%nat
  then Built {| index := var_values var; name := var_name |}
  else Failed InitValueError.

(** The inner loop of [from_variables] for the standard name [k]: the
    state is the entry of [indexes] for [k] and the local [dummy_name],
    each possibly not yet assigned. *)
Fixpoint scan_variables (k : string) (variables : list (string * CoordVariable))
    (st : option PandasIndex * option string)
  : init_result (option PandasIndex * option string) :=
  match variables with
  | [] => Built st
  | (var_name, var) :: variables' =>
      if bool_decide (standard_name var = Some k) then
        match PandasIndex_from_variables var_name var with
        | Built idx => scan_variables k variables' (Some idx, st.2)
        | Failed e => Failed e
        end
      else if (ndim var =? 0)%nat then scan_variables k variables' (st.1, Some var_name)
      else scan_variables k variables' st
  end.

(** [ForecastIndex.from_variables(variables, options)], the mapping
    [variables] in its iteration order and [options] holding the model. *)
Definition from_variables (variables : list (string * CoordVariable))
    (options : option Model) : init_result ForecastIndex.t :=
  if negb (length variables =? 3)%nat then Failed InitAssertionError
  else
    match scan_variables "forecast_reference_time" variables (None, None) with
    | Failed e => Failed e
    | Built (rt, dummy) =>
        match scan_variables "forecast_period" variables (None, dummy) with
        | Failed e => Failed e
        | Built (pd, dummy) =>
            match rt, pd with
            | Some rt, Some pd =>
                match dummy with
                | Some dummy_name =>
                    Built {| ForecastIndex._indexes :=
                               {| reference_time := rt; period := pd |};
                             ForecastIndex.dummy_name := dummy_name;
                             ForecastIndex.model := options |}
                | None => Failed InitUnboundLocalError
                end
            | _, _ => Failed InitTypeError
            end
        end
    end.

(** The periods a model run retains: the first K of the axis when the
    availability rule truncates the run, the whole axis otherwise. *)
Definition retained_periods (model : option Model) (r : Z) (period_index : list Z)
  : list Z :=
  match retained_count model r with
  | Some K => take (Z.to_nat K) period_index
  | None => period_index
  end.

(** The stitched timeline of a best estimate: the reference times before
    the cutoff, then the cutoff plus each retained period. *)
Definition best_estimate_times (time_index period_index : list Z)
    (last nsteps : nat) (t : Z) : list Z :=
  take last time_index ++ map (fun p => t + p) (take nsteps period_index).

(** * Properties *)

(** ** The dispatcher *)

Section Dispatcher.

Context (pandas_sel : PandasIndex -> string -> label ->
                      result ForecastIndex.IndexSelResult)
        (pandas_getitem : PandasIndex -> dim_indexer -> result PandasIndex)
        (merge_sel_results : list ForecastIndex.IndexSelResult ->
                             result ForecastIndex.IndexSelResult).

Local Abbreviation sel := (ForecastIndex.sel pandas_sel pandas_getitem merge_sel_results).

(** A request with the single key [dummy_name] reaches FMRC-style
    indexing when neither axis carries that name. *)
Lemma sel_singleton (self : ForecastIndex.t) (l : label) :
  name (reference_time (ForecastIndex._indexes self)) ≠ ForecastIndex.dummy_name self ->
  name (period (ForecastIndex._indexes self)) ≠ ForecastIndex.dummy_name self ->
  sel self {[ ForecastIndex.dummy_name self := l ]}
  = ForecastIndex.sel_forecast self l
      (name (reference_time (ForecastIndex._indexes self)))
      (name (period (ForecastIndex._indexes self))).
Proof.
  intros Ht Hp. unfold ForecastIndex.sel.
  rewrite lookup_singleton_eq, map_size_singleton. simpl.
  rewrite !lookup_singleton_ne by congruence.
  rewrite bool_decide_eq_false_2 by (intros [? ?]; discriminate). simpl.
  rewrite map_to_list_singleton, String.eqb_refl. reflexivity.
Qed.

Lemma size_two_keys (labels : gmap string label) (k1 k2 : string) :
  k1 ≠ k2 -> is_Some (labels !! k1) -> is_Some (labels !! k2) ->
  size labels ≠ 1%nat.
Proof.
  intros Hne H1 H2 Hsz.
  pose proof (map_size_delete_Some k1 labels H1) as Hd.
  rewrite Hsz in Hd. simpl in Hd.
  apply map_size_empty_inv in Hd.
  destruct H2 as [v Hv].
  assert (delete k1 labels !! k2 = Some v) as Hk
    by (rewrite lookup_delete_ne; auto).
  rewrite Hd, lookup_empty in Hk. discriminate.
Qed.

(** C4: a request that contains the dummy (cube-query) key together
    with at least one other key is refused with the ValueError of the
    first check of [sel], an InvalidConfiguration error, whatever the
    values bound to the keys; no selection is produced. *)
Theorem sel_rejects_mixed_request
    (self : ForecastIndex.t) (labels : gmap string label) (other : string) :
  is_Some (labels !! ForecastIndex.dummy_name self) ->
  other ≠ ForecastIndex.dummy_name self ->
  is_Some (labels !! other) ->
  sel self labels = Raise (ValueError CannotCombineWithNames)
  /\ kind_of (ValueError CannotCombineWithNames) = Some InvalidConfiguration.
Proof.
  intros Hd Hne Ho. split; [|reflexivity].
  unfold ForecastIndex.sel.
  rewrite bool_decide_eq_true_2 by assumption.
  assert (size labels ≠ 1%nat) as Hsz by (eapply size_two_keys; eauto).
  apply Nat.eqb_neq in Hsz. rewrite Hsz. reflexivity.
Qed.

(** C5: when the period axis has a first element and it is not the
    zero duration, resolving a BestEstimate query fails with the
    ValueError of [BestEstimate.get_indexer], an InvalidConfiguration
    error, for every value of [asof], model and reference-time axis;
    the dispatcher passes the failure on. *)
Theorem BestEstimate_requires_zero_period
    (self : ForecastIndex.t) (q : BestEstimate.t) (p0 : Z) :
  index (period (ForecastIndex._indexes self)) !! 0%nat = Some p0 ->
  p0 ≠ 0 ->
  name (reference_time (ForecastIndex._indexes self)) ≠ ForecastIndex.dummy_name self ->
  name (period (ForecastIndex._indexes self)) ≠ ForecastIndex.dummy_name self ->
  BestEstimate.get_indexer q (ForecastIndex.model self)
    (index (reference_time (ForecastIndex._indexes self)))
    (index (period (ForecastIndex._indexes self)))
  = Raise (ValueError PeriodDoesNotStartAtZero)
  /\ sel self {[ ForecastIndex.dummy_name self := LBestEstimate q ]}
     = Raise (ValueError PeriodDoesNotStartAtZero)
  /\ kind_of (ValueError PeriodDoesNotStartAtZero) = Some InvalidConfiguration.
Proof.
  intros H0 Hne Ht Hp.
  assert (BestEstimate.get_indexer q (ForecastIndex.model self)
            (index (reference_time (ForecastIndex._indexes self)))
            (index (period (ForecastIndex._indexes self)))
          = Raise (ValueError PeriodDoesNotStartAtZero)) as Hg.
  { unfold BestEstimate.get_indexer, getitem_int, norm_index.
    destruct (index (period (ForecastIndex._indexes self))) as [|p ps];
      [discriminate|].
    simpl in H0. injection H0 as ->. simpl.
    apply Z.eqb_neq in Hne. rewrite Hne. reflexivity. }
  split; [exact Hg|]. split; [|reflexivity].
  rewrite sel_singleton by assumption.
  unfold ForecastIndex.sel_forecast. simpl. rewrite Hg. reflexivity.
Qed.

(** C8: a value that is none of the four indexer types and has no
    [get_indexer] attribute (a number, a string, a slice) makes [sel]
    raise AttributeError at the call [label.get_indexer], before the
    [match] whose last case raises the "Invalid indexer type"
    ValueError; AttributeError is not an UnsupportedSelectorType
    error. *)
Theorem sel_plain_value_raises_AttributeError
    (model : option Model) (s : plain_selector) :
  sel (small_cube model) {[ "forecast"%string := LPlain s ]} = Raise AttributeError
  /\ kind_of AttributeError ≠ Some UnsupportedSelectorType.
Proof.
  split; [|discriminate].
  change "forecast"%string with (ForecastIndex.dummy_name (small_cube model)).
  rewrite sel_singleton by discriminate. reflexivity.
Qed.

(** The last case of the [match] is reached by an object of another
    type that does have a [get_indexer] returning a pair. *)
Lemma sel_duck_raises_ValueError (self : ForecastIndex.t)
    (gi : option Model -> list Z -> list Z -> result (indexer * indexer))
    (r : indexer * indexer) :
  name (reference_time (ForecastIndex._indexes self)) ≠ ForecastIndex.dummy_name self ->
  name (period (ForecastIndex._indexes self)) ≠ ForecastIndex.dummy_name self ->
  gi (ForecastIndex.model self)
     (index (reference_time (ForecastIndex._indexes self)))
     (index (period (ForecastIndex._indexes self))) = Ok r ->
  sel self {[ ForecastIndex.dummy_name self := LDuck gi ]}
  = Raise (ValueError InvalidIndexerType).
Proof.
  intros Ht Hp Hgi. rewrite sel_singleton by assumption.
  unfold ForecastIndex.sel_forecast. simpl. rewrite Hgi.
  destruct r. reflexivity.
Qed.

(** C1: on the cube with periods 0h and 1h, the offset 2h has no match
    on the period axis, and ConstantOffset resolves all the same: its
    period selector is the position -1, which [sel] hands back and uses
    to read the last period (1h) for the valid times. *)
Theorem ConstantOffset_absent_step_selects_last :
  ConstantOffset.get_indexer {| ConstantOffset.step := hours 2 |} None
    [0; hours 1] [0; hours 1] = Ok (slice_all, IInt (-1))
  /\ exists r,
       sel (small_cube None)
         {[ "forecast"%string := LConstantOffset {| ConstantOffset.step := hours 2 |} ]}
       = Ok r
       /\ ForecastIndex.dim_indexers r !! "step"%string = Some (Raw (IInt (-1)))
       /\ ForecastIndex.variables r !! "valid_time"%string
          = Some {| dims := "time"; data := Values [hours 1; hours 2];
                    attrs := [("standard_name", "time")]%string |}.
Proof.
  split; [reflexivity|].
  change "forecast"%string with (ForecastIndex.dummy_name (small_cube None)) at 1.
  rewrite sel_singleton by discriminate.
  eexists. split; [vm_compute; reflexivity|].
  split; reflexivity.
Qed.

End Dispatcher.

(** ** Exact lookup on an axis *)

Section Lookup.

Implicit Types (axis : list Z) (x : Z) (k : nat).

Lemma position_Some axis x k :
  position x axis = Some k -> axis !! k = Some x.
Proof.
  revert k. induction axis as [|y axis IH]; intros k; simpl; [discriminate|].
  destruct (Z.eqb_spec x y) as [->|Hne].
  - intros [= <-]. reflexivity.
  - destruct (position x axis) as [k'|]; simpl; [|discriminate].
    intros [= <-]. simpl. apply IH. reflexivity.
Qed.

Lemma position_None axis x :
  position x axis = None <-> x ∉ axis.
Proof.
  induction axis as [|y axis IH]; simpl.
  - split; [intros _; apply not_elem_of_nil | reflexivity].
  - rewrite not_elem_of_cons.
    destruct (Z.eqb_spec x y) as [->|Hne].
    + split; [discriminate | intros [? _]; congruence].
    + destruct (position x axis); simpl.
      * split; [discriminate|]. intros [_ H]. apply IH in H. discriminate.
      * split; [|reflexivity]. intros _. split; [assumption|]. apply IH. reflexivity.
Qed.

Lemma position_elem_of axis x :
  x ∈ axis -> exists k, position x axis = Some k.
Proof.
  intros Hin. destruct (position x axis) as [k|] eqn:E; [eauto|].
  apply position_None in E. contradiction.
Qed.

(** On an axis of unique labels the position found is the only one. *)
Lemma position_lookup_NoDup axis x k :
  NoDup axis -> axis !! k = Some x -> position x axis = Some k.
Proof.
  intros Hnd Hk.
  destruct (position_elem_of axis x) as [k' Hk'].
  { eapply list_elem_of_lookup_2; eauto. }
  rewrite Hk'. f_equal.
  apply position_Some in Hk'.
  eapply NoDup_lookup; eauto.
Qed.

Lemma get_loc_lookup axis x k :
  NoDup axis -> axis !! k = Some x -> get_loc axis x = Ok (Z.of_nat k).
Proof.
  intros Hnd Hk. unfold get_loc.
  rewrite (position_lookup_NoDup axis x k) by assumption. reflexivity.
Qed.

Lemma get_loc_absent axis x :
  x ∉ axis -> get_loc axis x = Raise KeyError.
Proof.
  intros Hx. unfold get_loc. apply position_None in Hx. rewrite Hx. reflexivity.
Qed.

Lemma get_indexer_absent axis x :
  NoDup axis -> x ∉ axis -> get_indexer axis [x] = Ok [-1].
Proof.
  intros Hnd Hx. unfold get_indexer.
  rewrite bool_decide_eq_true_2 by assumption. simpl.
  apply position_None in Hx. rewrite Hx. reflexivity.
Qed.

Lemma increasing_cons y axis :
  increasing (y :: axis) = true ->
  increasing axis = true /\ Forall (fun z => y < z) axis.
Proof.
  revert y. induction axis as [|z axis IH]; intros y H.
  - split; [reflexivity | constructor].
  - simpl in H. apply andb_true_iff in H as [Hyz H]. apply Z.ltb_lt in Hyz.
    split; [exact H|]. constructor; [exact Hyz|].
    destruct (IH z H) as [_ Hall].
    eapply Forall_impl; [exact Hall|]. simpl. intros; lia.
Qed.

(** A strictly increasing axis orders its values as it orders their
    positions. *)
Lemma increasing_lookup axis i j a b :
  increasing axis = true ->
  axis !! i = Some a -> axis !! j = Some b -> (i < j)%nat -> a < b.
Proof.
  revert i j. induction axis as [|y axis IH]; intros i j Hinc Hi Hj Hlt.
  - discriminate.
  - destruct (increasing_cons _ _ Hinc) as [Hinc' Hall].
    destruct j as [|j]; [lia|]. simpl in Hj.
    destruct i as [|i]; simpl in Hi.
    + injection Hi as ->.
      rewrite Forall_forall in Hall. apply Hall.
      eapply list_elem_of_lookup_2; eauto.
    + eapply IH; eauto. lia.
Qed.

Lemma increasing_NoDup axis : increasing axis = true -> NoDup axis.
Proof.
  induction axis as [|y axis IH]; intros Hinc; [constructor|].
  destruct (increasing_cons _ _ Hinc) as [Hinc' Hall].
  constructor; [|auto].
  intros Hin. rewrite Forall_forall in Hall. specialize (Hall _ Hin). lia.
Qed.

End Lookup.

(** ** ModelRun *)

(** C9: for a reference time [r] on a reference-time axis of unique
    labels, ModelRun resolves the reference-time selector to the position
    of [r]; the period selector is the full range [slice(None)] unless
    the availability rule truncates the run of [r] to a count K, and then
    it is [slice(K)], whose positions are exactly the contiguous range
    from 0 up to K (cut at the length of the axis). *)
Theorem ModelRun_selects_run
    (model : option Model) (time_index period_index : list Z) (r : Z) :
  NoDup time_index ->
  r ∈ time_index ->
  exists k : nat,
    time_index !! k = Some r
    /\ ModelRun.get_indexer {| ModelRun.time := r |} model time_index period_index
       = Ok (IInt (Z.of_nat k), ISlice None (retained_count model r))
    /\ positions (length period_index) (ISlice None (retained_count model r))
       = Ok (seq 0 (match retained_count model r with
                    | Some K => Nat.min (Z.to_nat K) (length period_index)
                    | None => length period_index
                    end)).
Proof.
  intros Hnd Hin.
  destruct (position_elem_of _ _ Hin) as [k Hk].
  exists k. split; [apply position_Some; exact Hk|]. split.
  - unfold ModelRun.get_indexer, get_loc, retained_count, slice_all. simpl.
    rewrite Hk. simpl.
    destruct (is_HRRR model && negb (hour r `mod` 6 =? 0)); reflexivity.
  - unfold retained_count, positions, slice_bounds.
    destruct (is_HRRR model && negb (hour r `mod` 6 =? 0));
      cbn [from_option]; do 2 f_equal.
    + unfold clamp_bound. change (19 <? 0) with false. cbv iota. lia.
    + lia.
Qed.

Lemma ModelRun_selects_run_witness :
  exists k : nat,
    scenario_times 0 !! k = Some (hours 1)
    /\ ModelRun.get_indexer {| ModelRun.time := hours 1 |} (Some HRRR)
         (scenario_times 0) scenario_periods
       = Ok (IInt (Z.of_nat k), ISlice None (retained_count (Some HRRR) (hours 1)))
    /\ positions (length scenario_periods)
         (ISlice None (retained_count (Some HRRR) (hours 1)))
       = Ok (seq 0 (match retained_count (Some HRRR) (hours 1) with
                    | Some K => Nat.min (Z.to_nat K) (length scenario_periods)
                    | None => length scenario_periods
                    end)).
Proof.
  apply (ModelRun_selects_run (Some HRRR) (scenario_times 0) scenario_periods (hours 1)).
  - apply increasing_NoDup. vm_compute. reflexivity.
  - apply (list_elem_of_lookup_2 _ 1%nat). reflexivity.
Defined.

(** ** BestEstimate *)

(** C10: for every timestamp [a], constructing [BestEstimate(asof=a)]
    raises: [__post_init__] reads the attribute [since], which the class
    does not define, and the AttributeError ends the construction.
    Without [asof] the construction succeeds. *)
Theorem BestEstimate_new_asof_raises (a : Z) :
  BestEstimate.post_init {| BestEstimate.asof := Some a |} = Raise AttributeError
  /\ BestEstimate.new (Some a) = Raise AttributeError
  /\ BestEstimate.new None = Ok {| BestEstimate.asof := None |}.
Proof. repeat split. Qed.

Lemma lookup_last_length (axis : list Z) (a : Z) :
  last axis = Some a -> axis !! (length axis - 1)%nat = Some a.
Proof.
  intros H. rewrite last_lookup in H.
  replace (length axis - 1)%nat with (Nat.pred (length axis)) by lia. exact H.
Qed.

(** On a query object whose field [asof] holds the last reference time,
    [get_indexer] computes what it computes without [asof]. *)
Lemma BestEstimate_get_indexer_asof_last
    (model : option Model) (time_index period_index : list Z) (a : Z) :
  NoDup time_index ->
  last time_index = Some a ->
  BestEstimate.get_indexer {| BestEstimate.asof := Some a |} model time_index period_index
  = BestEstimate.get_indexer {| BestEstimate.asof := None |} model time_index period_index.
Proof.
  intros Hnd Hlast. unfold BestEstimate.get_indexer. simpl.
  apply lookup_last_length in Hlast.
  rewrite (get_loc_lookup _ _ _ Hnd Hlast).
  assert (length time_index ≠ 0%nat) as Hlen.
  { intros E. destruct time_index; [discriminate | simpl in E; lia]. }
  unfold size_of.
  replace (Z.of_nat (length time_index - 1)) with (Z.of_nat (length time_index) - 1) by lia.
  reflexivity.
Qed.

(** C2: a BestEstimate query whose [asof] is the last reference time of
    the small cube cannot be built, so resolving it through the
    constructor ends in AttributeError, whereas the query without [asof]
    resolves to the positions ([0; 1; 1], [0; 0; 1]). *)
Theorem BestEstimate_asof_last_not_resolved :
  (q ← BestEstimate.new (Some (hours 1));
   BestEstimate.get_indexer q None [0; hours 1] [0; hours 1])
  = Raise AttributeError
  /\ (q ← BestEstimate.new None;
      BestEstimate.get_indexer q None [0; hours 1] [0; hours 1])
     = Ok (IArray [0; 1; 1], IArray [0; 0; 1]).
Proof. split; reflexivity. Qed.

(** ** ConstantOffset *)

Lemma hour_scenario (d k : Z) :
  0 <= k < 24 -> hour (hours (24 * d) + hours k) = k.
Proof.
  intros Hk. unfold hour, hours.
  replace (24 * d * ns_per_hour + k * ns_per_hour)
    with ((k + d * 24) * ns_per_hour) by ring.
  rewrite Z.div_mul by discriminate.
  rewrite Z_mod_plus_full. apply Z.mod_small. exact Hk.
Qed.

Lemma scenario_hours (d : Z) :
  map hour (scenario_times d) = map Z.of_nat (seq 0 24).
Proof.
  unfold scenario_times. rewrite map_map.
  apply map_ext_in. intros k Hk. apply in_seq in Hk.
  apply hour_scenario. lia.
Qed.

(** With HRRR and a step beyond eighteen hours the reference-time
    selector lists the positions whose hour is a multiple of six. *)
Lemma ConstantOffset_time_selector (model : option Model)
    (time_index period_index : list Z) (q : ConstantOffset.t) (p : Z) :
  get_indexer period_index [ConstantOffset.step q] = Ok [p] ->
  ConstantOffset.get_indexer q model time_index period_index
  = Ok (if is_HRRR model && ConstantOffset.beyond_18h q
        then IArray (boolean_index (arange 0 (size_of time_index))
                       (map (fun h => h `mod` 6 =? 0) (map hour time_index)))
        else slice_all,
        IInt p).
Proof.
  intros Hp. unfold ConstantOffset.get_indexer. rewrite Hp. simpl.
  rewrite map_map. reflexivity.
Qed.

(** C7 (amended): in the scenario of the specification, on any day,
    ConstantOffset(32h) under HRRR resolves the reference-time selector
    to the four positions of the hours 00:00, 06:00, 12:00 and 18:00,
    and the period selector to position 32. *)
Theorem ConstantOffset_32h_scenario (d : Z) :
  ConstantOffset.get_indexer {| ConstantOffset.step := hours 32 |} (Some HRRR)
    (scenario_times d) scenario_periods
  = Ok (IArray [0; 6; 12; 18], IInt 32).
Proof.
  rewrite (ConstantOffset_time_selector _ _ _ _ 32) by (vm_compute; reflexivity).
  rewrite scenario_hours.
  assert (size_of (scenario_times d) = 24) as ->.
  { unfold size_of, scenario_times. rewrite length_map, length_seq. reflexivity. }
  vm_compute. reflexivity.
Qed.

(** C7 as stated fails: in the scenario, the reference-time selector of
    ConstantOffset(32h) is not the single position of 06:00. *)
Lemma ConstantOffset_32h_not_only_six :
  ~ exists time_idxr period_idxr,
      ConstantOffset.get_indexer {| ConstantOffset.step := hours 32 |} (Some HRRR)
        (scenario_times 0) scenario_periods = Ok (time_idxr, period_idxr)
      /\ positions 24 time_idxr = Ok [6%nat].
Proof.
  intros (time_idxr & period_idxr & Hget & Hpos).
  vm_compute in Hget. injection Hget as <- <-.
  vm_compute in Hpos. discriminate.
Qed.

(** ** The derived valid time *)

Section Indexing.

Implicit Types (axis : list Z) (ix : indexer) (n k : nat).

Lemma clamp_bound_le n (b : Z) : (clamp_bound n b <= n)%nat.
Proof. unfold clamp_bound. destruct (b <? 0) eqn:E; lia. Qed.

Lemma slice_bounds_le n (start stop : option Z) :
  ((slice_bounds n start stop).1 <= n)%nat /\ ((slice_bounds n start stop).2 <= n)%nat.
Proof.
  unfold slice_bounds. simpl.
  destruct start, stop; simpl; auto using clamp_bound_le with lia.
Qed.

Lemma getitem_int_lookup axis (i v : Z) :
  getitem_int axis i = Ok v ->
  exists k, norm_index (length axis) i = Ok k /\ axis !! k = Some v.
Proof.
  unfold getitem_int. destruct (norm_index (length axis) i) as [k|e]; simpl; [|discriminate].
  destruct (axis !! k) as [w|] eqn:E; [|discriminate].
  intros [= <-]. eauto.
Qed.

Lemma getitem_array_lookup axis (a vs : list Z) :
  getitem_array axis a = Ok vs ->
  exists ps, mapM (norm_index (length axis)) a = Ok ps
             /\ Forall2 (fun k v => axis !! k = Some v) ps vs.
Proof.
  revert vs. induction a as [|i a IH]; intros vs; simpl.
  - intros [= <-]. exists []. split; [reflexivity | constructor].
  - destruct (getitem_int axis i) as [v|] eqn:Ei; simpl; [|discriminate].
    destruct (getitem_array axis a) as [vs'|] eqn:Ea; simpl; [|discriminate].
    intros [= <-].
    destruct (getitem_int_lookup _ _ _ Ei) as (k & Hk & Hv).
    destruct (IH _ eq_refl) as (ps & Hps & Hall).
    exists (k :: ps). rewrite Hk. simpl. rewrite Hps. simpl.
    split; [reflexivity | constructor; assumption].
Qed.

Lemma getitem_slice_lookup axis (start stop : option Z) :
  Forall2 (fun k v => axis !! k = Some v)
    (seq (slice_bounds (length axis) start stop).1
         ((slice_bounds (length axis) start stop).2
          - (slice_bounds (length axis) start stop).1))
    (getitem_slice axis start stop).
Proof.
  unfold getitem_slice.
  destruct (slice_bounds_le (length axis) start stop) as [Hlo Hhi].
  destruct (slice_bounds (length axis) start stop) as [lo hi]. simpl in *.
  apply Forall2_same_length_lookup. split.
  - rewrite length_seq, length_take, length_drop. lia.
  - intros i k v Hk Hv. apply lookup_seq in Hk as [-> Hlt].
    rewrite lookup_take_lt, lookup_drop in Hv by assumption. exact Hv.
Qed.

(** What [axis[ix]] holds: the values at the positions the indexer
    selects, a scalar exactly for a scalar indexer. *)
Lemma getitem_spec axis ix (d : indexed) :
  getitem axis ix = Ok d ->
  exists ps, positions (length axis) ix = Ok ps
    /\ Forall2 (fun k v => axis !! k = Some v) ps (elements d)
    /\ match d with
       | Scalar _ => exists i, ix = IInt i
       | Values _ => forall (qs : list nat) k, pick (Raw ix) qs k = qs !! k
       end.
Proof.
  destruct ix as [i|start stop|a]; simpl.
  - destruct (getitem_int axis i) as [v|] eqn:Ei; simpl; [|discriminate].
    intros [= <-]. destruct (getitem_int_lookup _ _ _ Ei) as (k & Hk & Hv).
    exists [k]. rewrite Hk. simpl.
    split; [reflexivity|]. split; [repeat constructor; assumption | eauto].
  - intros [= <-].
    eexists. split; [reflexivity|].
    split; [apply getitem_slice_lookup | reflexivity].
  - destruct (getitem_array axis a) as [vs|] eqn:Ea; simpl; [|discriminate].
    intros [= <-]. destruct (getitem_array_lookup _ _ _ Ea) as (ps & Hps & Hall).
    exists ps. split; [exact Hps|]. split; [exact Hall | reflexivity].
Qed.

End Indexing.

Lemma as_variable_positions (n : nat) (dim : string) (ix : indexer) :
  selector_positions n (ForecastIndex.as_variable dim ix) = positions n ix.
Proof. destruct ix; reflexivity. Qed.

Lemma pick_as_variable (dim : string) (ix : indexer) (qs : list nat) (k : nat) :
  pick (ForecastIndex.as_variable dim ix) qs k = pick (Raw ix) qs k.
Proof. destruct ix; reflexivity. Qed.

(** None of the three strategies that derive a valid time returns two
    scalar selectors. *)
Lemma strategy_not_both_scalar (l : label) (model : option Model)
    (time_index period_index : list Z) (ti pi : indexer) :
  ForecastIndex.is_ConstantForecast l = false ->
  (forall gi, l ≠ LDuck gi) ->
  ForecastIndex.label_get_indexer l model time_index period_index = Ok (ti, pi) ->
  is_int ti && is_int pi = false.
Proof.
  intros Hcf Hduck. destruct l as [q|q|q|q|s|gi]; simpl; try discriminate.
  - unfold ConstantOffset.get_indexer.
    destruct (get_indexer period_index [ConstantOffset.step q]) as [idxs|]; simpl; [|discriminate].
    destruct idxs as [|p [|? ?]]; simpl; try discriminate.
    destruct (is_HRRR model && ConstantOffset.beyond_18h q); intros [= <- <-]; reflexivity.
  - unfold ModelRun.get_indexer.
    destruct (get_loc time_index (ModelRun.time q)); simpl; [|discriminate].
    destruct (is_HRRR model && negb (hour (ModelRun.time q) `mod` 6 =? 0));
      intros [= <- <-]; reflexivity.
  - unfold BestEstimate.get_indexer.
    destruct (getitem_int period_index 0); simpl; [|discriminate].
    destruct (negb (a =? 0)); [discriminate|].
    destruct (match BestEstimate.asof q with
              | Some a0 => get_loc time_index a0
              | None => Ok (size_of time_index - 1)
              end) as [last_index|]; simpl; [|discriminate].
    destruct (if is_HRRR model
              then t ← getitem_int time_index last_index;
                   Ok (if negb (hour t `mod` 6 =? 0) then 19 else size_of period_index)
              else Ok (size_of period_index)) as [nsteps|]; simpl; [|discriminate].
    destruct (np_zeros (last_index - 0)); simpl; [|discriminate].
    intros [= <- <-]. reflexivity.
  - exfalso. eapply Hduck. reflexivity.
Qed.

(** What a successful FMRC-style selection other than ConstantForecast
    is made of. *)
Lemma sel_forecast_inv (self : ForecastIndex.t) (l : label)
    (time_name period_name : string) (res : ForecastIndex.IndexSelResult) :
  time_name ≠ period_name ->
  ForecastIndex.is_ConstantForecast l = false ->
  ForecastIndex.sel_forecast self l time_name period_name = Ok res ->
  exists ti pi ts ps vt dt dp,
    ForecastIndex.label_get_indexer l (ForecastIndex.model self)
      (index (reference_time (ForecastIndex._indexes self)))
      (index (period (ForecastIndex._indexes self))) = Ok (ti, pi)
    /\ (forall gi, l ≠ LDuck gi)
    /\ getitem (index (reference_time (ForecastIndex._indexes self))) ti = Ok ts
    /\ getitem (index (period (ForecastIndex._indexes self))) pi = Ok ps
    /\ add_indexed ts ps = Ok vt
    /\ ForecastIndex.dim_indexers res !! time_name = Some dt
    /\ ForecastIndex.dim_indexers res !! period_name = Some dp
    /\ (dt = Raw ti \/ exists dim, dt = ForecastIndex.as_variable dim ti)
    /\ (dp = Raw pi \/ exists dim, dp = ForecastIndex.as_variable dim pi)
    /\ data <$> ForecastIndex.variables res !! "valid_time"%string = Some vt.
Proof.
  intros Hne Hcf. unfold ForecastIndex.sel_forecast.
  destruct (ForecastIndex.label_get_indexer l _ _ _) as [[ti pi]|] eqn:Hg;
    simpl; [|discriminate].
  destruct (ForecastIndex.sel_match self l time_name period_name ti pi)
    as [[[indexer indexes] dim]|] eqn:Hm; simpl; [|discriminate].
  rewrite Hcf. simpl.
  destruct (getitem _ ti) as [ts|] eqn:Hts; simpl; [|discriminate].
  destruct (getitem _ pi) as [ps|] eqn:Hps; simpl; [|discriminate].
  destruct (add_indexed ts ps) as [vt|] eqn:Hvt; simpl; [|discriminate].
  intros [= <-]. simpl.
  assert (exists dt dp,
             indexer !! time_name = Some dt /\ indexer !! period_name = Some dp
             /\ (dt = Raw ti \/ exists dim, dt = ForecastIndex.as_variable dim ti)
             /\ (dp = Raw pi \/ exists dim, dp = ForecastIndex.as_variable dim pi)
             /\ (forall gi, l ≠ LDuck gi)) as (dt & dp & Ht & Hp & Hdt & Hdp & Hduck).
  { destruct l as [q|q|q|q|s|gi]; simpl in Hm; try discriminate.
    - destruct (getitem _ ti); simpl in Hm; [|discriminate].
      injection Hm as <- _ _. do 2 eexists.
      rewrite lookup_insert_ne, lookup_insert_eq, lookup_insert_eq by congruence.
      repeat split; eauto; discriminate.
    - destruct (getitem _ pi); simpl in Hm; [|discriminate].
      injection Hm as <- _ _. do 2 eexists.
      rewrite lookup_insert_ne, lookup_insert_eq, lookup_insert_eq by congruence.
      repeat split; eauto; discriminate.
    - injection Hm as <- _ _. do 2 eexists.
      rewrite lookup_insert_ne, lookup_insert_eq, lookup_insert_eq by congruence.
      repeat split; eauto; discriminate. }
  exists ti, pi, ts, ps, vt, dt, dp.
  rewrite lookup_singleton_eq. simpl. repeat split; assumption.
Qed.

Section ValidTime.

Context (pandas_sel : PandasIndex -> string -> label ->
                      result ForecastIndex.IndexSelResult)
        (pandas_getitem : PandasIndex -> dim_indexer -> result PandasIndex)
        (merge_sel_results : list ForecastIndex.IndexSelResult ->
                             result ForecastIndex.IndexSelResult).

(** C6: in every selection that [sel] produces for a ModelRun,
    ConstantOffset or BestEstimate query (any query but ConstantForecast),
    the coordinate [valid_time] is, element by element, the sum of the
    reference time and the period at the positions that the two returned
    selectors retain, a scalar selector being paired with every element;
    and it has an element wherever both selectors have a position. *)
Theorem valid_time_is_sum
    (self : ForecastIndex.t) (l : label) (res : ForecastIndex.IndexSelResult) :
  name (reference_time (ForecastIndex._indexes self)) ≠ ForecastIndex.dummy_name self ->
  name (period (ForecastIndex._indexes self)) ≠ ForecastIndex.dummy_name self ->
  name (reference_time (ForecastIndex._indexes self))
    ≠ name (period (ForecastIndex._indexes self)) ->
  ForecastIndex.is_ConstantForecast l = false ->
  ForecastIndex.sel pandas_sel pandas_getitem merge_sel_results self
    {[ ForecastIndex.dummy_name self := l ]} = Ok res ->
  exists (dt dp : dim_indexer) (tp pp : list nat) (vt : indexed),
    ForecastIndex.dim_indexers res
      !! name (reference_time (ForecastIndex._indexes self)) = Some dt
    /\ ForecastIndex.dim_indexers res
         !! name (period (ForecastIndex._indexes self)) = Some dp
    /\ selector_positions
         (length (index (reference_time (ForecastIndex._indexes self)))) dt = Ok tp
    /\ selector_positions
         (length (index (period (ForecastIndex._indexes self)))) dp = Ok pp
    /\ data <$> ForecastIndex.variables res !! "valid_time"%string = Some vt
    /\ (forall (k : nat) (v : Z),
          elements vt !! k = Some v ->
          exists (i j : nat) (r p : Z),
            pick dt tp k = Some i /\ pick dp pp k = Some j
            /\ index (reference_time (ForecastIndex._indexes self)) !! i = Some r
            /\ index (period (ForecastIndex._indexes self)) !! j = Some p
            /\ v = r + p)
    /\ (forall (k i j : nat),
          pick dt tp k = Some i -> pick dp pp k = Some j ->
          is_Some (elements vt !! k)).
Proof.
  intros Hnt Hnp Hne Hcf Hsel.
  rewrite sel_singleton in Hsel by assumption.
  destruct (sel_forecast_inv _ _ _ _ _ Hne Hcf Hsel)
    as (ti & pi & ts & ps & vt & dt & dp & Hg & Hduck & Hts & Hps & Hvt
        & Hdt & Hdp & Hdt' & Hdp' & Hvar).
  pose proof (strategy_not_both_scalar _ _ _ _ _ _ Hcf Hduck Hg) as Hshape.
  destruct (getitem_spec _ _ _ Hts) as (tp & Htp & Ht2 & Htk).
  destruct (getitem_spec _ _ _ Hps) as (pp & Hpp & Hp2 & Hpk).
  assert (selector_positions
            (length (index (reference_time (ForecastIndex._indexes self)))) dt = Ok tp
          /\ forall qs k, pick dt qs k = pick (Raw ti) qs k) as [Hsp_t Hpick_t].
  { destruct Hdt' as [->|[dim ->]].
    - split; [exact Htp | reflexivity].
    - rewrite as_variable_positions. split; [exact Htp|]. intros. apply pick_as_variable. }
  assert (selector_positions
            (length (index (period (ForecastIndex._indexes self)))) dp = Ok pp
          /\ forall qs k, pick dp qs k = pick (Raw pi) qs k) as [Hsp_p Hpick_p].
  { destruct Hdp' as [->|[dim ->]].
    - split; [exact Hpp | reflexivity].
    - rewrite as_variable_positions. split; [exact Hpp|]. intros. apply pick_as_variable. }
  exists dt, dp, tp, pp, vt.
  do 5 (split; [assumption|]).
  destruct ts as [x|xs], ps as [y|ys]; simpl in Hvt, Ht2, Hp2.
  - (* two scalars: no strategy returns them *)
    destruct Htk as [i ->], Hpk as [j ->]. discriminate.
  - (* a reference time against a run of periods *)
    injection Hvt as <-. destruct Htk as [i0 ->].
    apply Forall2_cons_inv_r in Ht2 as (i & tp' & Hi & Hnil & ->).
    apply Forall2_nil_inv_r in Hnil as ->.
    change (map (fun y => x + y) ys) with ((fun y => x + y) <$> ys).
    split.
    + intros k v Hk. simpl in Hk. rewrite list_lookup_fmap in Hk.
      destruct (ys !! k) as [y|] eqn:Hy; [|discriminate]. injection Hk as <-.
      destruct (Forall2_lookup_r _ _ _ _ _ Hp2 Hy) as (j & Hj & HPj).
      exists i, j, x, y. rewrite Hpick_t, Hpick_p, Hpk. simpl. auto.
    + intros k i' j _ Hj. rewrite Hpick_p, Hpk in Hj.
      destruct (Forall2_lookup_l _ _ _ _ _ Hp2 Hj) as (y & Hy & _).
      simpl. rewrite list_lookup_fmap, Hy. eauto.
  - (* a run of reference times against one period *)
    injection Hvt as <-. destruct Hpk as [j0 ->].
    apply Forall2_cons_inv_r in Hp2 as (j & pp' & Hj & Hnil & ->).
    apply Forall2_nil_inv_r in Hnil as ->.
    change (map (fun x => x + y) xs) with ((fun x => x + y) <$> xs).
    split.
    + intros k v Hk. simpl in Hk. rewrite list_lookup_fmap in Hk.
      destruct (xs !! k) as [x|] eqn:Hx; [|discriminate]. injection Hk as <-.
      destruct (Forall2_lookup_r _ _ _ _ _ Ht2 Hx) as (i & Hi & HTi).
      exists i, j, x, y. rewrite Hpick_t, Hpick_p, Htk. simpl. auto.
    + intros k i j' Hi _. rewrite Hpick_t, Htk in Hi.
      destruct (Forall2_lookup_l _ _ _ _ _ Ht2 Hi) as (x & Hx & _).
      simpl. rewrite list_lookup_fmap, Hx. eauto.
  - (* two arrays of the same length *)
    destruct (length xs =? length ys)%nat; [|discriminate].
    injection Hvt as <-. simpl.
    split.
    + intros k v Hk.
      apply lookup_zip_with_Some in Hk as (x & y & -> & Hx & Hy).
      destruct (Forall2_lookup_r _ _ _ _ _ Ht2 Hx) as (i & Hi & HTi).
      destruct (Forall2_lookup_r _ _ _ _ _ Hp2 Hy) as (j & Hj & HPj).
      exists i, j, x, y. rewrite Hpick_t, Hpick_p, Htk, Hpk. auto.
    + intros k i j Hi Hj. rewrite Hpick_t, Htk in Hi. rewrite Hpick_p, Hpk in Hj.
      destruct (Forall2_lookup_l _ _ _ _ _ Ht2 Hi) as (x & Hx & _).
      destruct (Forall2_lookup_l _ _ _ _ _ Hp2 Hj) as (y & Hy & _).
      exists (x + y). apply lookup_zip_with_Some. eauto.
Qed.

End ValidTime.

(** ** ConstantForecast *)

Section Diagonal.

Variables (model : option Model) (period_index : list Z) (target : Z).

Lemma arange_succ (a : Z) (n : nat) :
  arange a (a + Z.of_nat (S n)) = a :: arange (a + 1) (a + 1 + Z.of_nat n).
Proof.
  unfold arange.
  replace (Z.to_nat (a + Z.of_nat (S n) - a)) with (S n) by lia.
  replace (Z.to_nat (a + 1 + Z.of_nat n - (a + 1))) with n by lia.
  simpl. f_equal; [lia|].
  rewrite <- seq_shift, map_map. apply map_ext. intros k. lia.
Qed.

Lemma boolean_index_nil {A} (arr : list A) : boolean_index arr [] = [].
Proof. destruct arr; reflexivity. Qed.

(** The two masked arrays of [ConstantForecast.get_indexer] are the two
    projections of [kept_pairs]. *)
Lemma masked_arrays_kept_pairs (a : Z) (ts : list Z) :
  let steps := map (fun t => target - t) ts in
  let idxs := map (fun x => match position x period_index with
                            | Some k => Z.of_nat k
                            | None => -1
                            end) steps in
  let keep := mask_and
                (map (fun p => ConstantForecast.model_keeps model p.1 p.2) (zip ts steps))
                (map (fun i => negb (i =? -1)) idxs) in
  boolean_index (arange a (a + Z.of_nat (length ts))) keep
  = map fst (kept_pairs model period_index target a ts)
  /\ boolean_index idxs keep
     = map snd (kept_pairs model period_index target a ts).
Proof.
  revert a. induction ts as [|t ts IH]; intros a;
    [split; [apply boolean_index_nil | reflexivity]|].
  cbn zeta in *. specialize (IH (a + 1)). destruct IH as [IH1 IH2].
  change (length (t :: ts)) with (S (length ts)). rewrite arange_succ.
  cbn [map zip_with mask_and boolean_index kept_pairs fst snd].
  destruct (position (target - t) period_index) as [j|].
  - assert ((Z.of_nat j =? -1) = false) as -> by (apply Z.eqb_neq; lia).
    rewrite andb_true_r.
    destruct (ConstantForecast.model_keeps model t (target - t));
      cbn [map fst snd]; rewrite IH1, IH2; split; reflexivity.
  - change (-1 =? -1) with true. rewrite andb_false_r. cbn [negb].
    rewrite IH1, IH2. split; reflexivity.
Qed.

Lemma kept_pairs_sound (a : Z) (ts : list Z) (i j : Z) :
  (i, j) ∈ kept_pairs model period_index target a ts ->
  exists (k jn : nat) (t : Z),
    i = a + Z.of_nat k /\ j = Z.of_nat jn
    /\ ts !! k = Some t /\ period_index !! jn = Some (target - t)
    /\ ConstantForecast.model_keeps model t (target - t) = true.
Proof.
  revert a. induction ts as [|t ts IH]; intros a; simpl.
  - intros H. apply elem_of_nil in H. contradiction.
  - intros H.
    assert ((i, j) ∈ kept_pairs model period_index target (a + 1) ts ->
            exists (k jn : nat) (t0 : Z),
              i = a + Z.of_nat k /\ j = Z.of_nat jn
              /\ (t :: ts) !! k = Some t0 /\ period_index !! jn = Some (target - t0)
              /\ ConstantForecast.model_keeps model t0 (target - t0) = true) as Hrest.
    { intros Hin. destruct (IH _ Hin) as (k & jn & t0 & -> & -> & Hk & Hj & Hm).
      exists (S k), jn, t0. repeat split; auto. lia. }
    destruct (position (target - t) period_index) as [jn|] eqn:Hpos; [|auto].
    destruct (ConstantForecast.model_keeps model t (target - t)) eqn:Hm; [|auto].
    apply elem_of_cons in H as [[= -> ->]|H]; [|auto].
    exists 0%nat, jn, t. repeat split; auto; [lia|]. apply position_Some. exact Hpos.
Qed.

Lemma kept_pairs_complete (a : Z) (ts : list Z) (k jn : nat) (t : Z) :
  ts !! k = Some t ->
  position (target - t) period_index = Some jn ->
  ConstantForecast.model_keeps model t (target - t) = true ->
  (a + Z.of_nat k, Z.of_nat jn) ∈ kept_pairs model period_index target a ts.
Proof.
  revert a k. induction ts as [|t0 ts IH]; intros a k Hk Hpos Hm; [discriminate|].
  destruct k as [|k]; simpl in Hk.
  - injection Hk as ->. simpl. rewrite Hpos, Hm.
    replace (a + Z.of_nat 0) with a by lia. apply list_elem_of_here.
  - specialize (IH (a + 1) k Hk Hpos Hm).
    replace (a + Z.of_nat (S k)) with (a + 1 + Z.of_nat k) by lia.
    simpl. destruct (position (target - t0) period_index); [|exact IH].
    destruct (ConstantForecast.model_keeps model t0 (target - t0)); [|exact IH].
    apply list_elem_of_further. exact IH.
Qed.

End Diagonal.

Section Window.

Variable p : Z -> bool.
Hypothesis p_downward : forall x y, x < y -> p y = true -> p x = true.

Lemma count_while_le (axis : list Z) : (count_while p axis <= length axis)%nat.
Proof. induction axis as [|y axis IH]; simpl; [lia|]. destruct (p y); lia. Qed.

(** On an increasing axis the leading elements that satisfy a downward
    closed test are all the elements that satisfy it. *)
Lemma count_while_lookup (axis : list Z) (i : nat) (r : Z) :
  increasing axis = true -> axis !! i = Some r ->
  ((i < count_while p axis)%nat <-> p r = true).
Proof.
  revert i. induction axis as [|y axis IH]; intros i Hinc Hi; [discriminate|].
  destruct (increasing_cons _ _ Hinc) as [Hinc' Hall].
  simpl. destruct i as [|i]; simpl in Hi.
  - injection Hi as ->.
    destruct (p r); split; intros; first [lia | discriminate | reflexivity].
  - destruct (p y) eqn:Hy.
    + rewrite <- (IH i Hinc' Hi). lia.
    + split; [lia|]. intros Hr.
      rewrite Forall_forall in Hall.
      assert (y < r) as Hlt by (apply Hall; eapply list_elem_of_lookup_2; eauto).
      rewrite (p_downward _ _ Hlt Hr) in Hy. discriminate.
Qed.

End Window.

Lemma getitem_int_last (axis : list Z) (a : Z) :
  last axis = Some a -> getitem_int axis (-1) = Ok a.
Proof.
  intros Hlast. pose proof (lookup_last_length _ _ Hlast) as Hl.
  assert (length axis ≠ 0%nat) as Hlen
    by (intros E; destruct axis; [discriminate | simpl in E; lia]).
  unfold getitem_int, norm_index. change (0 <=? -1) with false. cbn [andb].
  replace (- Z.of_nat (length axis) <=? -1) with true by (symmetry; apply Z.leb_le; lia).
  change (-1 <? 0) with true. cbn [andb]. simpl.
  replace (Z.to_nat (-1 + Z.of_nat (length axis))) with (length axis - 1)%nat by lia.
  rewrite Hl. reflexivity.
Qed.

Lemma clamp_bound_of_nat (n c : nat) :
  (c <= n)%nat -> clamp_bound n (Z.of_nat c) = c.
Proof.
  intros Hc. unfold clamp_bound.
  replace (Z.of_nat c <? 0) with false by (symmetry; apply Z.ltb_ge; lia). lia.
Qed.

Lemma getitem_slice_of_nat {A} (axis : list A) (lo hi : nat) :
  (lo <= length axis)%nat -> (hi <= length axis)%nat ->
  getitem_slice axis (Some (Z.of_nat lo)) (Some (Z.of_nat hi))
  = take (hi - lo) (drop lo axis).
Proof.
  intros Hlo Hhi. unfold getitem_slice, slice_bounds. simpl.
  rewrite !clamp_bound_of_nat by assumption. reflexivity.
Qed.

(** On a period axis of unique labels with last element
    [max_timedelta], when [target - max_timedelta] is a timestamp,
    ConstantForecast returns the kept pairs of its window. *)
Lemma ConstantForecast_get_indexer_eq (model : option Model)
    (time_index period_index : list Z) (target max_timedelta : Z) :
  NoDup period_index ->
  last period_index = Some max_timedelta ->
  in_bounds (target - max_timedelta) = true ->
  let '(lo, hi) := window time_index (target - max_timedelta) target in
  let pairs := kept_pairs model period_index target (Z.of_nat lo)
                 (take (hi - lo) (drop lo time_index)) in
  ConstantForecast.get_indexer {| ConstantForecast.time := target |} model
    time_index period_index
  = Ok (IArray (map fst pairs), IArray (map snd pairs)).
Proof.
  intros Hnd Hlast Hbounds. unfold window.
  set (lo := count_while (fun y => y <? target - max_timedelta) time_index).
  set (hi := count_while (fun y => y <=? target) time_index).
  assert (lo <= length time_index)%nat as Hlo by apply count_while_le.
  assert (hi <= length time_index)%nat as Hhi by apply count_while_le.
  unfold ConstantForecast.get_indexer. cbn [ConstantForecast.time].
  rewrite (getitem_int_last _ _ Hlast). cbn [mbind result_bind].
  unfold timestamp_sub. rewrite Hbounds. cbn [mbind result_bind].
  unfold get_slice_bound. fold lo hi.
  rewrite getitem_slice_of_nat by assumption.
  set (ts := take (hi - lo) (drop lo time_index)).
  assert (length ts = (hi - lo)%nat) as Hlen
    by (unfold ts; rewrite length_take, length_drop; lia).
  unfold get_indexer. rewrite bool_decide_eq_true_2 by assumption.
  cbn [mbind result_bind].
  replace (arange (Z.of_nat lo) (Z.of_nat hi))
    with (arange (Z.of_nat lo) (Z.of_nat lo + Z.of_nat (length ts)))
    by (unfold arange; do 2 f_equal; lia).
  destruct (masked_arrays_kept_pairs model period_index target (Z.of_nat lo) ts)
    as [H1 H2].
  cbn zeta in H1, H2. rewrite H1, H2.
  rewrite !length_map, Nat.eqb_refl. reflexivity.
Qed.

Lemma increasing_le_last (axis : list Z) (j : nat) (p a : Z) :
  increasing axis = true -> last axis = Some a -> axis !! j = Some p -> p <= a.
Proof.
  intros Hinc Hlast Hj. apply lookup_last_length in Hlast.
  pose proof (lookup_lt_Some _ _ _ Hj) as Hlt.
  destruct (decide (j = length axis - 1)%nat) as [->|Hne].
  - rewrite Hlast in Hj. injection Hj as ->. lia.
  - assert (p < a); [|lia].
    eapply (increasing_lookup axis j (length axis - 1)); eauto. lia.
Qed.

(** Outside the range of timestamps the subtraction of the longest
    period raises, whatever the axes hold otherwise. *)
Lemma ConstantForecast_out_of_bounds (model : option Model)
    (time_index period_index : list Z) (target max_timedelta : Z) :
  last period_index = Some max_timedelta ->
  in_bounds (target - max_timedelta) = false ->
  ConstantForecast.get_indexer {| ConstantForecast.time := target |} model
    time_index period_index = Raise OutOfBoundsDatetime.
Proof.
  intros Hlast Hbounds.
  unfold ConstantForecast.get_indexer. cbn [ConstantForecast.time].
  rewrite (getitem_int_last _ _ Hlast). cbn [mbind result_bind].
  unfold timestamp_sub. rewrite Hbounds. reflexivity.
Qed.

(** C3: on increasing axes with non-negative periods, the period axis
    ending in [max_timedelta], ConstantForecast succeeds for every model
    and every target valid time whose earliest candidate
    [target - max_timedelta] is a timestamp pandas can hold, and returns
    two position arrays of the same length; the reference time and the
    period at each returned pair of positions sum exactly to the target
    and pass the model mask; and the arrays are empty exactly when no
    reference time and period of the axes that pass the model mask sum to
    the target.  The empty answer is an ordinary result. *)
Theorem ConstantForecast_exact_pairs
    (model : option Model) (time_index period_index : list Z)
    (target max_timedelta : Z) :
  increasing time_index = true ->
  increasing period_index = true ->
  Forall (fun p => 0 <= p) period_index ->
  last period_index = Some max_timedelta ->
  in_bounds (target - max_timedelta) = true ->
  exists tis pis : list Z,
    ConstantForecast.get_indexer {| ConstantForecast.time := target |} model
      time_index period_index = Ok (IArray tis, IArray pis)
    /\ length tis = length pis
    /\ (forall (k : nat) (i j : Z),
          tis !! k = Some i -> pis !! k = Some j ->
          exists (i' j' : nat) (r p : Z),
            i = Z.of_nat i' /\ j = Z.of_nat j'
            /\ time_index !! i' = Some r /\ period_index !! j' = Some p
            /\ r + p = target
            /\ ConstantForecast.model_keeps model r p = true)
    /\ (tis = [] /\ pis = [] <->
        ~ exists (i' j' : nat) (r p : Z),
            time_index !! i' = Some r /\ period_index !! j' = Some p
            /\ r + p = target
            /\ ConstantForecast.model_keeps model r p = true).
Proof.
  intros HincT HincP Hnonneg Hlast Hbounds.
  pose proof (increasing_NoDup _ HincP) as Hnd.
  pose proof (ConstantForecast_get_indexer_eq model time_index period_index
                target max_timedelta Hnd Hlast Hbounds) as Heq.
  unfold window in Heq. cbn zeta in Heq.
  set (lo := count_while (fun y => y <? target - max_timedelta) time_index) in *.
  set (hi := count_while (fun y => y <=? target) time_index) in *.
  set (ts := take (hi - lo) (drop lo time_index)) in *.
  set (pairs := kept_pairs model period_index target (Z.of_nat lo) ts) in *.
  assert (forall i j, (i, j) ∈ pairs ->
            exists (i' j' : nat) (r p : Z),
              i = Z.of_nat i' /\ j = Z.of_nat j'
              /\ time_index !! i' = Some r /\ period_index !! j' = Some p
              /\ r + p = target
              /\ ConstantForecast.model_keeps model r p = true) as Hsound.
  { intros i j Hin.
    destruct (kept_pairs_sound _ _ _ _ _ _ _ Hin) as (k & jn & t & -> & -> & Hk & Hj & Hm).
    exists (lo + k)%nat, jn, t, (target - t).
    unfold ts in Hk. apply lookup_take_Some in Hk as [Hk _].
    rewrite lookup_drop in Hk.
    repeat split; auto; lia. }
  exists (map fst pairs), (map snd pairs).
  split; [exact Heq|]. split; [rewrite !length_map; reflexivity|]. split.
  - intros k i j Hi Hj.
    change (map fst pairs) with (fst <$> pairs) in Hi.
    change (map snd pairs) with (snd <$> pairs) in Hj.
    rewrite list_lookup_fmap in Hi, Hj.
    destruct (pairs !! k) as [[i0 j0]|] eqn:Hk; [|discriminate].
    simpl in Hi, Hj. injection Hi as <-. injection Hj as <-.
    apply Hsound. eapply list_elem_of_lookup_2; eauto.
  - split.
    + intros [Hnil _] (i' & j' & r & p & Hr & Hp & Hsum & Hm).
      assert (pairs = []) as Hpairs by (destruct pairs; [reflexivity | discriminate]).
      assert (p <= max_timedelta) as Hmax by (eapply increasing_le_last; eauto).
      assert (0 <= p) as Hpos.
      { rewrite Forall_forall in Hnonneg. apply Hnonneg.
        eapply list_elem_of_lookup_2; eauto. }
      assert (i' < hi)%nat as Hhi.
      { apply (count_while_lookup (fun y => y <=? target)) with (r := r); auto.
        - intros x y Hxy Hy. apply Z.leb_le in Hy. apply Z.leb_le. lia.
        - apply Z.leb_le. lia. }
      assert (lo <= i')%nat as Hlo.
      { destruct (le_lt_dec lo i') as [|Hlt]; [assumption|].
        apply (count_while_lookup (fun y => y <? target - max_timedelta))
          with (r := r) in Hlt; auto.
        - apply Z.ltb_lt in Hlt. lia.
        - intros x y Hxy Hy. apply Z.ltb_lt in Hy. apply Z.ltb_lt. lia. }
      assert (ts !! (i' - lo)%nat = Some r) as Hts.
      { unfold ts. rewrite lookup_take_lt, lookup_drop by lia.
        replace (lo + (i' - lo))%nat with i' by lia. exact Hr. }
      assert (position (target - r) period_index = Some j') as Hposn.
      { apply position_lookup_NoDup; [assumption|].
        replace (target - r) with p by lia. exact Hp. }
      assert (ConstantForecast.model_keeps model r (target - r) = true) as Hm'
        by (replace (target - r) with p by lia; exact Hm).
      pose proof (kept_pairs_complete model period_index target (Z.of_nat lo)
                    ts _ _ _ Hts Hposn Hm') as Hin.
      fold pairs in Hin. rewrite Hpairs in Hin.
      apply elem_of_nil in Hin. exact Hin.
    + intros Hnone.
      destruct pairs as [|[i j] rest] eqn:Hpairs; [split; reflexivity|].
      exfalso. apply Hnone.
      destruct (Hsound i j) as (i' & j' & r & p & _ & _ & H).
      { apply list_elem_of_here. }
      exists i', j', r, p. exact H.
Qed.

Lemma ConstantForecast_exact_pairs_witness :
  exists tis pis : list Z,
    ConstantForecast.get_indexer {| ConstantForecast.time := hours 1 |} (Some HRRR)
      [0; hours 1] [0; hours 1] = Ok (IArray tis, IArray pis)
    /\ length tis = length pis
    /\ (forall (k : nat) (i j : Z),
          tis !! k = Some i -> pis !! k = Some j ->
          exists (i' j' : nat) (r p : Z),
            i = Z.of_nat i' /\ j = Z.of_nat j'
            /\ [0; hours 1] !! i' = Some r /\ [0; hours 1] !! j' = Some p
            /\ r + p = hours 1
            /\ ConstantForecast.model_keeps (Some HRRR) r p = true)
    /\ (tis = [] /\ pis = [] <->
        ~ exists (i' j' : nat) (r p : Z),
            [0; hours 1] !! i' = Some r /\ [0; hours 1] !! j' = Some p
            /\ r + p = hours 1
            /\ ConstantForecast.model_keeps (Some HRRR) r p = true).
Proof.
  apply (ConstantForecast_exact_pairs (Some HRRR) [0; hours 1] [0; hours 1]
           (hours 1) (hours 1)).
  - reflexivity.
  - reflexivity.
  - repeat constructor; vm_compute; discriminate.
  - reflexivity.
  - reflexivity.
Defined.

(** ** Requests that reach the checks of the dispatcher *)

Lemma sel_rejects_mixed_request_witness :
  ForecastIndex.sel exact_sel exact_getitem last_result (small_cube None)
    (<[ "time"%string := LPlain (PLabel 0) ]>
       {[ "forecast"%string := LModelRun {| ModelRun.time := 0 |} ]})
  = Raise (ValueError CannotCombineWithNames)
  /\ kind_of (ValueError CannotCombineWithNames) = Some InvalidConfiguration.
Proof.
  apply (sel_rejects_mixed_request exact_sel exact_getitem last_result
           (small_cube None) _ "time"%string).
  - eexists. vm_compute. reflexivity.
  - discriminate.
  - eexists. vm_compute. reflexivity.
Defined.

Lemma BestEstimate_requires_zero_period_witness :
  BestEstimate.get_indexer {| BestEstimate.asof := None |} (Some HRRR)
    [0; hours 1] [hours 1; hours 2]
  = Raise (ValueError PeriodDoesNotStartAtZero)
  /\ ForecastIndex.sel exact_sel exact_getitem last_result
       (cube (Some HRRR) [0; hours 1] [hours 1; hours 2])
       {[ "forecast"%string := LBestEstimate {| BestEstimate.asof := None |} ]}
     = Raise (ValueError PeriodDoesNotStartAtZero)
  /\ kind_of (ValueError PeriodDoesNotStartAtZero) = Some InvalidConfiguration.
Proof.
  apply (BestEstimate_requires_zero_period exact_sel exact_getitem last_result
           (cube (Some HRRR) [0; hours 1] [hours 1; hours 2])
           {| BestEstimate.asof := None |} (hours 1)).
  - reflexivity.
  - vm_compute. discriminate.
  - discriminate.
  - discriminate.
Defined.

Lemma valid_time_is_sum_witness :
  exists res : ForecastIndex.IndexSelResult,
    ForecastIndex.sel exact_sel exact_getitem last_result (small_cube (Some HRRR))
      {[ "forecast"%string := LModelRun {| ModelRun.time := hours 1 |} ]} = Ok res
    /\ exists (dt dp : dim_indexer) (tp pp : list nat) (vt : indexed),
         ForecastIndex.dim_indexers res !! "time"%string = Some dt
         /\ ForecastIndex.dim_indexers res !! "step"%string = Some dp
         /\ selector_positions 2 dt = Ok tp
         /\ selector_positions 2 dp = Ok pp
         /\ data <$> ForecastIndex.variables res !! "valid_time"%string = Some vt
         /\ (forall (k : nat) (v : Z),
               elements vt !! k = Some v ->
               exists (i j : nat) (r p : Z),
                 pick dt tp k = Some i /\ pick dp pp k = Some j
                 /\ [0; hours 1] !! i = Some r
                 /\ [0; hours 1] !! j = Some p
                 /\ v = r + p)
         /\ (forall (k i j : nat),
               pick dt tp k = Some i -> pick dp pp k = Some j ->
               is_Some (elements vt !! k)).
Proof.
  eexists. split.
  - vm_compute. reflexivity.
  - apply (valid_time_is_sum exact_sel exact_getitem last_result
             (small_cube (Some HRRR)) (LModelRun {| ModelRun.time := hours 1 |})).
    + discriminate.
    + discriminate.
    + discriminate.
    + reflexivity.
    + vm_compute. reflexivity.
Defined.

(** ** Absent labels *)

(** A reference time that is not on the axis makes ModelRun raise
    KeyError. *)
Lemma ModelRun_absent_raises_KeyError (model : option Model)
    (time_index period_index : list Z) (r : Z) :
  r ∉ time_index ->
  ModelRun.get_indexer {| ModelRun.time := r |} model time_index period_index
  = Raise KeyError.
Proof.
  intros Hr. unfold ModelRun.get_indexer. simpl.
  rewrite (get_loc_absent _ _ Hr). reflexivity.
Qed.

(** A step that is not on a period axis of unique labels makes
    ConstantOffset return the position -1. *)
Lemma ConstantOffset_absent_step (model : option Model)
    (time_index period_index : list Z) (step : Z) :
  NoDup period_index ->
  step ∉ period_index ->
  exists time_idxr,
    ConstantOffset.get_indexer {| ConstantOffset.step := step |} model
      time_index period_index = Ok (time_idxr, IInt (-1)).
Proof.
  intros Hnd Hstep. eexists.
  apply ConstantOffset_time_selector. simpl.
  apply get_indexer_absent; assumption.
Qed.

(** * Further properties of the indexer types *)

(** ** Masks over positions *)

Lemma increasing_cons_intro (x : Z) (l : list Z) :
  Forall (fun y => x < y) l -> increasing l = true -> increasing (x :: l) = true.
Proof.
  intros Hall Hinc. destruct l as [|y l]; [reflexivity|].
  apply Forall_cons in Hall as [Hxy _].
  change (increasing (x :: y :: l)) with ((x <? y) && increasing (y :: l)).
  rewrite Hinc. apply andb_true_iff. split; [apply Z.ltb_lt; exact Hxy | reflexivity].
Qed.

(** Masking the positions [a, a+1, ...] of a list with a test of its
    elements keeps, in increasing order, the positions of the elements
    that pass the test. *)
Lemma boolean_index_arange_map (f : Z -> bool) (l : list Z) (a : Z) :
  (forall x,
      x ∈ boolean_index (arange a (a + Z.of_nat (length l))) (map f l)
      <-> exists (i : nat) (t : Z),
            x = a + Z.of_nat i /\ l !! i = Some t /\ f t = true)
  /\ increasing (boolean_index (arange a (a + Z.of_nat (length l))) (map f l)) = true
  /\ Forall (fun x => a <= x)
       (boolean_index (arange a (a + Z.of_nat (length l))) (map f l)).
Proof.
  revert a. induction l as [|t l IH]; intros a.
  - rewrite boolean_index_nil. split; [|split; [reflexivity | constructor]].
    intros x. split.
    + intros H. apply elem_of_nil in H. contradiction.
    + intros (i & t & _ & Hi & _). discriminate.
  - change (length (t :: l)) with (S (length l)). rewrite arange_succ.
    destruct (IH (a + 1)) as (Hmem & Hinc & Hge). clear IH.
    cbn [map boolean_index].
    set (rest := boolean_index (arange (a + 1) (a + 1 + Z.of_nat (length l))) (map f l)) in *.
    assert (forall x, x ∈ rest ->
              exists (i : nat) (t0 : Z),
                x = a + Z.of_nat i /\ (t :: l) !! i = Some t0 /\ f t0 = true) as Hrest1.
    { intros x Hx. apply Hmem in Hx as (i & t0 & -> & Hi & Hf).
      exists (S i), t0. split; [lia | split; assumption]. }
    assert (forall x (i : nat) (t0 : Z),
              x = a + Z.of_nat (S i) -> l !! i = Some t0 -> f t0 = true -> x ∈ rest)
      as Hrest2.
    { intros x i t0 -> Hi Hf. apply Hmem. exists i, t0. split; [lia | split; assumption]. }
    destruct (f t) eqn:Hft.
    + split; [|split].
      * intros x. rewrite elem_of_cons. split.
        -- intros [->|Hx]; [|auto].
           exists 0%nat, t. split; [lia | split; [reflexivity | exact Hft]].
        -- intros (i & t0 & Hx & Hi & Hf). destruct i as [|i].
           ++ left. lia.
           ++ right. eapply Hrest2; eauto.
      * apply increasing_cons_intro; [|exact Hinc].
        eapply Forall_impl; [exact Hge|]. simpl. intros; lia.
      * constructor; [lia|]. eapply Forall_impl; [exact Hge|]. simpl. intros; lia.
    + split; [|split].
      * intros x. split; [auto|].
        intros (i & t0 & Hx & Hi & Hf). destruct i as [|i].
        -- simpl in Hi. injection Hi as <-. congruence.
        -- eapply Hrest2; eauto.
      * exact Hinc.
      * eapply Forall_impl; [exact Hge|]. simpl. intros; lia.
Qed.

(** ** ConstantOffset on a step of the axis *)

(** The test [total_seconds() / 3600 > 18] in nanoseconds: it reads the
    step without its nanoseconds, so it holds from eighteen hours and one
    microsecond on. *)
Lemma beyond_18h_spec (q : ConstantOffset.t) :
  ConstantOffset.beyond_18h q = (hours 18 + 1000 <=? ConstantOffset.step q).
Proof.
  unfold ConstantOffset.beyond_18h, ConstantOffset.total_microseconds,
    hours, ns_per_hour.
  pose proof (Z.div_mod (ConstantOffset.step q) 1000 ltac:(discriminate)) as Hdm.
  pose proof (Z.mod_pos_bound (ConstantOffset.step q) 1000 ltac:(reflexivity)) as Hm.
  destruct (Z.ltb_spec (18 * 3600 * 1000000) (ConstantOffset.step q `div` 1000));
    destruct (Z.leb_spec (18 * 3600000000000 + 1000) (ConstantOffset.step q));
    first [reflexivity | lia].
Qed.


(** X1: a step found on a period axis of unique labels resolves to its
    position.  The reference-time selector is [slice(None)], except under
    HRRR for a step of at least eighteen hours and one microsecond (the
    test reads the step without its nanoseconds), where it is the array
    of exactly the positions whose reference time has an hour that is a
    multiple of six, in increasing order. *)
Theorem ConstantOffset_selectors (model : option Model)
    (time_index period_index : list Z) (step : Z) (k : nat) :
  NoDup period_index ->
  period_index !! k = Some step ->
  exists time_idxr : indexer,
    ConstantOffset.get_indexer {| ConstantOffset.step := step |} model
      time_index period_index = Ok (time_idxr, IInt (Z.of_nat k))
    /\ (is_HRRR model && (hours 18 + 1000 <=? step) = false -> time_idxr = slice_all)
    /\ (is_HRRR model && (hours 18 + 1000 <=? step) = true ->
        exists a : list Z,
          time_idxr = IArray a
          /\ increasing a = true
          /\ forall x : Z,
               x ∈ a <-> exists (i : nat) (t : Z),
                           x = Z.of_nat i /\ time_index !! i = Some t
                           /\ hour t `mod` 6 = 0).
Proof.
  intros Hnd Hk.
  assert (get_indexer period_index [step] = Ok [Z.of_nat k]) as Hgi.
  { unfold get_indexer. rewrite bool_decide_eq_true_2 by assumption. simpl.
    rewrite (position_lookup_NoDup _ _ _ Hnd Hk). reflexivity. }
  rewrite (ConstantOffset_time_selector model time_index period_index
             {| ConstantOffset.step := step |} (Z.of_nat k) Hgi).
  rewrite beyond_18h_spec. cbn [ConstantOffset.step]. rewrite map_map.
  destruct (is_HRRR model && (hours 18 + 1000 <=? step)).
  - eexists. split; [reflexivity|]. split; [discriminate|]. intros _.
    eexists. split; [reflexivity|].
    destruct (boolean_index_arange_map (fun t => hour t `mod` 6 =? 0) time_index 0)
      as (Hmem & Hinc & _).
    split; [exact Hinc|].
    intros x. rewrite (Hmem x). split.
    + intros (i & t & -> & Hi & Ht). exists i, t.
      split; [lia | split; [exact Hi | apply Z.eqb_eq; exact Ht]].
    + intros (i & t & -> & Hi & Ht). exists i, t.
      split; [lia | split; [exact Hi | apply Z.eqb_eq; exact Ht]].
  - eexists. split; [reflexivity|]. split; [reflexivity | discriminate].
Qed.

Lemma ConstantOffset_selectors_witness :
  exists time_idxr : indexer,
    ConstantOffset.get_indexer {| ConstantOffset.step := hours 20 |} (Some HRRR)
      (scenario_times 0) scenario_periods = Ok (time_idxr, IInt (Z.of_nat 20))
    /\ (is_HRRR (Some HRRR) && (hours 18 + 1000 <=? hours 20) = false ->
        time_idxr = slice_all)
    /\ (is_HRRR (Some HRRR) && (hours 18 + 1000 <=? hours 20) = true ->
        exists a : list Z,
          time_idxr = IArray a
          /\ increasing a = true
          /\ forall x : Z,
               x ∈ a <-> exists (i : nat) (t : Z),
                           x = Z.of_nat i /\ scenario_times 0 !! i = Some t
                           /\ hour t `mod` 6 = 0).
Proof.
  apply (ConstantOffset_selectors (Some HRRR) (scenario_times 0) scenario_periods
           (hours 20) 20).
  - apply increasing_NoDup. vm_compute. reflexivity.
  - reflexivity.
Defined.

(** ** What [sel] returns for ModelRun and ConstantOffset *)

Lemma getitem_slice_all {A} (axis : list A) : getitem_slice axis None None = axis.
Proof.
  unfold getitem_slice, slice_bounds. simpl.
  rewrite Nat.sub_0_r. apply firstn_all.
Qed.

Lemma clamp_bound_nonneg (n : nat) (K : Z) :
  0 <= K -> clamp_bound n K = Nat.min (Z.to_nat K) n.
Proof.
  intros HK. unfold clamp_bound.
  replace (K <? 0) with false by (symmetry; apply Z.ltb_ge; exact HK). lia.
Qed.

Lemma getitem_slice_stop {A} (axis : list A) (K : Z) :
  0 <= K -> getitem_slice axis None (Some K) = take (Z.to_nat K) axis.
Proof.
  intros HK. unfold getitem_slice, slice_bounds. cbn [from_option].
  rewrite clamp_bound_nonneg by exact HK. rewrite Nat.sub_0_r.
  change (drop 0 axis) with axis.
  destruct (Nat.le_ge_cases (Z.to_nat K) (length axis)) as [Hle|Hge].
  - rewrite Nat.min_l by exact Hle. reflexivity.
  - rewrite Nat.min_r by exact Hge.
    rewrite firstn_all. symmetry. apply take_ge. exact Hge.
Qed.

Lemma getitem_int_of_nat (axis : list Z) (k : nat) (v : Z) :
  axis !! k = Some v -> getitem_int axis (Z.of_nat k) = Ok v.
Proof.
  intros Hk. pose proof (lookup_lt_Some _ _ _ Hk) as Hlt.
  unfold getitem_int, norm_index.
  replace (0 <=? Z.of_nat k) with true by (symmetry; apply Z.leb_le; lia).
  replace (Z.of_nat k <? Z.of_nat (length axis)) with true
    by (symmetry; apply Z.ltb_lt; lia).
  simpl. rewrite Nat2Z.id, Hk. reflexivity.
Qed.

Lemma getitem_slice_retained (model : option Model) (r : Z) (period_index : list Z) :
  getitem_slice period_index None (retained_count model r)
  = retained_periods model r period_index.
Proof.
  unfold retained_periods, retained_count.
  destruct (is_HRRR model && negb (hour r `mod` 6 =? 0)).
  - apply getitem_slice_stop. lia.
  - apply getitem_slice_all.
Qed.

Lemma ModelRun_get_indexer_found (model : option Model)
    (time_index period_index : list Z) (r : Z) (k : nat) :
  NoDup time_index -> time_index !! k = Some r ->
  ModelRun.get_indexer {| ModelRun.time := r |} model time_index period_index
  = Ok (IInt (Z.of_nat k), ISlice None (retained_count model r)).
Proof.
  intros Hnd Hk. unfold ModelRun.get_indexer, retained_count, slice_all.
  cbn [ModelRun.time]. rewrite (get_loc_lookup _ _ _ Hnd Hk).
  cbn [mbind result_bind].
  destruct (is_HRRR model && negb (hour r `mod` 6 =? 0)); reflexivity.
Qed.

Section SelResults.

Context (pandas_sel : PandasIndex -> string -> label ->
                      result ForecastIndex.IndexSelResult)
        (pandas_getitem : PandasIndex -> dim_indexer -> result PandasIndex)
        (merge_sel_results : list ForecastIndex.IndexSelResult ->
                             result ForecastIndex.IndexSelResult).

Local Abbreviation sel := (ForecastIndex.sel pandas_sel pandas_getitem merge_sel_results).
Local Abbreviation time_name self := (name (reference_time (ForecastIndex._indexes self))).
Local Abbreviation period_name self := (name (period (ForecastIndex._indexes self))).
Local Abbreviation time_index self := (index (reference_time (ForecastIndex._indexes self))).
Local Abbreviation period_index self := (index (period (ForecastIndex._indexes self))).


(** X5: A reference time that is not on the axis is refused with KeyError,
    a NotFound error, by [ModelRun.get_indexer] and by [sel], whatever
    the model and whatever the period axis. *)
Theorem sel_ModelRun_absent (self : ForecastIndex.t) (r : Z) :
  time_name self ≠ ForecastIndex.dummy_name self ->
  period_name self ≠ ForecastIndex.dummy_name self ->
  r ∉ time_index self ->
  ModelRun.get_indexer {| ModelRun.time := r |} (ForecastIndex.model self)
    (time_index self) (period_index self) = Raise KeyError
  /\ sel self {[ ForecastIndex.dummy_name self := LModelRun {| ModelRun.time := r |} ]}
     = Raise KeyError
  /\ kind_of KeyError = Some NotFound.
Proof.
  intros Hnt Hnp Hr.
  assert (ModelRun.get_indexer {| ModelRun.time := r |} (ForecastIndex.model self)
            (time_index self) (period_index self) = Raise KeyError) as Hg.
  { unfold ModelRun.get_indexer. cbn [ModelRun.time].
    rewrite (get_loc_absent _ _ Hr). reflexivity. }
  split; [exact Hg|]. split; [|reflexivity].
  rewrite sel_singleton by assumption.
  unfold ForecastIndex.sel_forecast. cbn [ForecastIndex.label_get_indexer].
  rewrite Hg. reflexivity.
Qed.



End SelResults.

(** ** More on ConstantForecast *)

Lemma ConstantForecast_ok_inv (q : ConstantForecast.t) (model : option Model)
    (time_index period_index : list Z) (r : indexer * indexer) :
  ConstantForecast.get_indexer q model time_index period_index = Ok r ->
  NoDup period_index
  /\ exists max_timedelta,
       last period_index = Some max_timedelta
       /\ in_bounds (ConstantForecast.time q - max_timedelta) = true.
Proof.
  intros H.
  destruct (last period_index) as [m|] eqn:Hlast;
    [|apply last_None in Hlast; subst; discriminate].
  unfold ConstantForecast.get_indexer in H.
  rewrite (getitem_int_last _ _ Hlast) in H. cbn [mbind result_bind] in H.
  unfold timestamp_sub in H.
  destruct (in_bounds (ConstantForecast.time q - m)) eqn:Hbounds;
    cbn [mbind result_bind] in H; [|discriminate].
  split; [|eauto].
  destruct (decide (NoDup period_index)) as [|Hdup]; [assumption|].
  exfalso. unfold get_indexer in H.
  rewrite bool_decide_eq_false_2 in H by assumption. discriminate.
Qed.

Lemma kept_pairs_fst_increasing (model : option Model) (period_index : list Z)
    (target a : Z) (ts : list Z) :
  increasing (map fst (kept_pairs model period_index target a ts)) = true
  /\ Forall (fun i => a <= i) (map fst (kept_pairs model period_index target a ts)).
Proof.
  revert a. induction ts as [|t ts IH]; intros a; [split; [reflexivity | constructor]|].
  destruct (IH (a + 1)) as [Hinc Hge]. simpl.
  assert (Forall (fun i => a <= i)
            (map fst (kept_pairs model period_index target (a + 1) ts))) as Hge'
    by (eapply Forall_impl; [exact Hge|]; simpl; intros; lia).
  destruct (position (target - t) period_index); [|auto].
  destruct (ConstantForecast.model_keeps model t (target - t)); [|auto].
  simpl. split.
  - apply increasing_cons_intro; [|exact Hinc].
    eapply Forall_impl; [exact Hge|]. simpl. intros; lia.
  - constructor; [lia | exact Hge'].
Qed.

Lemma ConstantForecast_positions_range
    (model : option Model) (time_index period_index : list Z) (target : Z)
    (tis pis : list Z) :
  ConstantForecast.get_indexer {| ConstantForecast.time := target |} model
    time_index period_index = Ok (IArray tis, IArray pis) ->
  Forall (fun i => 0 <= i < size_of time_index) tis
  /\ Forall (fun j => 0 <= j < size_of period_index) pis.
Proof.
  intros Hget.
  destruct (ConstantForecast_ok_inv _ _ _ _ _ Hget) as [Hnd [m [Hlast Hbounds]]].
  pose proof (ConstantForecast_get_indexer_eq model time_index period_index
                target m Hnd Hlast Hbounds) as Heq.
  unfold window in Heq. cbn zeta in Heq.
  set (lo := count_while (fun y => y <? target - m) time_index) in *.
  set (hi := count_while (fun y => y <=? target) time_index) in *.
  set (ts := take (hi - lo) (drop lo time_index)) in *.
  set (pairs := kept_pairs model period_index target (Z.of_nat lo) ts) in *.
  rewrite Heq in Hget. injection Hget as <- <-.
  assert (forall i j, (i, j) ∈ pairs ->
            0 <= i < size_of time_index /\ 0 <= j < size_of period_index) as Hin.
  { intros i j Hij.
    destruct (kept_pairs_sound _ _ _ _ _ _ _ Hij) as (k & jn & t & -> & -> & Hk & Hj & _).
    unfold ts in Hk. apply lookup_take_Some in Hk as [Hk _].
    rewrite lookup_drop in Hk.
    apply lookup_lt_Some in Hk. apply lookup_lt_Some in Hj.
    unfold size_of. lia. }
  split; apply Forall_forall; intros x Hx;
    apply list_elem_of_fmap in Hx as ([i j] & -> & Hij);
    destruct (Hin i j Hij); assumption.
Qed.

(** X6: the reference-time positions that ConstantForecast returns are
    strictly increasing, so no reference time is selected twice, and the
    returned positions all lie on their axes. *)
Theorem ConstantForecast_positions_in_order
    (model : option Model) (time_index period_index : list Z) (target : Z)
    (tis pis : list Z) :
  ConstantForecast.get_indexer {| ConstantForecast.time := target |} model
    time_index period_index = Ok (IArray tis, IArray pis) ->
  increasing tis = true
  /\ Forall (fun i => 0 <= i < size_of time_index) tis
  /\ Forall (fun j => 0 <= j < size_of period_index) pis.
Proof.
  intros Hget. split; [|eapply ConstantForecast_positions_range; exact Hget].
  destruct (ConstantForecast_ok_inv _ _ _ _ _ Hget) as [Hnd [m [Hlast Hbounds]]].
  pose proof (ConstantForecast_get_indexer_eq model time_index period_index
                target m Hnd Hlast Hbounds) as Heq.
  unfold window in Heq. cbn zeta in Heq.
  rewrite Heq in Hget. injection Hget as <- _.
  apply kept_pairs_fst_increasing.
Qed.

Lemma kept_pairs_sublist (model : option Model) (period_index : list Z)
    (target a : Z) (ts : list Z) :
  kept_pairs model period_index target a ts
    `sublist_of` kept_pairs None period_index target a ts.
Proof.
  revert a. induction ts as [|t ts IH]; intros a; [constructor|].
  simpl. destruct (position (target - t) period_index); [|apply IH].
  destruct (ConstantForecast.model_keeps model t (target - t)).
  - apply sublist_skip, IH.
  - apply sublist_cons, IH.
Qed.

(** X7: the model only removes pairs from the diagonal: when ConstantForecast
    succeeds under a model, it succeeds without a model too, and the
    pairs it returns under the model are, in the same order, among the
    pairs it returns without. *)
Theorem ConstantForecast_model_only_removes
    (model : option Model) (time_index period_index : list Z) (target : Z)
    (tis pis : list Z) :
  ConstantForecast.get_indexer {| ConstantForecast.time := target |} model
    time_index period_index = Ok (IArray tis, IArray pis) ->
  exists tis' pis' : list Z,
    ConstantForecast.get_indexer {| ConstantForecast.time := target |} None
      time_index period_index = Ok (IArray tis', IArray pis')
    /\ zip tis pis `sublist_of` zip tis' pis'.
Proof.
  intros Hget.
  destruct (ConstantForecast_ok_inv _ _ _ _ _ Hget) as [Hnd [m [Hlast Hbounds]]].
  pose proof (ConstantForecast_get_indexer_eq model time_index period_index
                target m Hnd Hlast Hbounds) as Heq.
  pose proof (ConstantForecast_get_indexer_eq None time_index period_index
                target m Hnd Hlast Hbounds) as Heq'.
  unfold window in Heq, Heq'. cbn zeta in Heq, Heq'.
  rewrite Heq in Hget. injection Hget as <- <-.
  do 2 eexists. split; [exact Heq'|].
  change (@map (Z * Z) Z fst) with (@fmap list _ (Z * Z) Z fst).
  change (@map (Z * Z) Z snd) with (@fmap list _ (Z * Z) Z snd).
  rewrite !zip_fst_snd. apply kept_pairs_sublist.
Qed.

(** ** More on BestEstimate *)

Lemma arange_0 (n : nat) : arange 0 (Z.of_nat n) = map Z.of_nat (seq 0 n).
Proof.
  unfold arange. replace (Z.to_nat (Z.of_nat n - 0)) with n by lia.
  apply map_ext. intros k. reflexivity.
Qed.

(** Inversion of a successful BestEstimate lookup. *)
Lemma BestEstimate_get_indexer_inv (q : BestEstimate.t) (model : option Model)
    (time_index period_index : list Z) (ta pa : indexer) :
  BestEstimate.get_indexer q model time_index period_index = Ok (ta, pa) ->
  exists (last nsteps : nat) (t : Z),
    time_index !! last = Some t
    /\ match BestEstimate.asof q with
       | Some a => t = a
       | None => S last = length time_index
       end
    /\ period_index !! 0%nat = Some 0
    /\ nsteps = (if is_HRRR model && negb (hour t `mod` 6 =? 0)
                 then 19%nat else length period_index)
    /\ ta = IArray (map Z.of_nat (seq 0 last) ++ repeat (Z.of_nat last) nsteps)
    /\ pa = IArray (repeat 0 last ++ map Z.of_nat (seq 0 nsteps)).
Proof.
  unfold BestEstimate.get_indexer.
  destruct (getitem_int period_index 0) as [p0|] eqn:Hp0; cbn [mbind result_bind];
    [|discriminate].
  destruct (Z.eqb_spec p0 0) as [->|]; cbn [negb]; [|discriminate].
  apply (getitem_int_lookup _ 0) in Hp0 as (k0 & Hk0 & Hp0).
  assert (k0 = 0%nat) as ->.
  { unfold norm_index in Hk0.
    destruct ((0 <=? 0) && (0 <? Z.of_nat (length period_index)));
      [injection Hk0 as <-; reflexivity|].
    change (0 <? 0) with false in Hk0. rewrite andb_false_r in Hk0. discriminate. }
  destruct (match BestEstimate.asof q with
            | Some a => get_loc time_index a
            | None => Ok (size_of time_index - 1)
            end) as [last_index|] eqn:Hlast; cbn [mbind result_bind]; [|discriminate].
  intros H.
  assert (0 <= last_index) as Hnonneg.
  { destruct (is_HRRR model);
      [destruct (getitem_int time_index last_index); cbn [mbind result_bind] in H;
         [|discriminate]|];
      cbn [mbind result_bind] in H; unfold np_zeros in H;
      destruct (Z.ltb_spec (last_index - 0) 0); try discriminate; lia. }
  assert (exists t, time_index !! Z.to_nat last_index = Some t
                    /\ match BestEstimate.asof q with
                       | Some a => t = a
                       | None => S (Z.to_nat last_index) = length time_index
                       end) as (t & Ht & Hasof).
  { destruct (BestEstimate.asof q) as [a|].
    - unfold get_loc in Hlast.
      destruct (position a time_index) as [k|] eqn:Hk; [|discriminate].
      injection Hlast as <-. exists a. rewrite Nat2Z.id.
      split; [apply position_Some; exact Hk | reflexivity].
    - injection Hlast as <-. unfold size_of in *.
      destruct (time_index !! Z.to_nat (Z.of_nat (length time_index) - 1))
        as [t|] eqn:Ht.
      + exists t. split; [reflexivity | lia].
      + apply lookup_ge_None in Ht. lia. }
  assert (getitem_int time_index last_index = Ok t) as Hget.
  { replace last_index with (Z.of_nat (Z.to_nat last_index)) by lia.
    apply getitem_int_of_nat. exact Ht. }
  exists (Z.to_nat last_index),
         (if is_HRRR model && negb (hour t `mod` 6 =? 0)
          then 19%nat else length period_index), t.
  split; [exact Ht|]. split; [exact Hasof|]. split; [exact Hp0|].
  split; [reflexivity|].
  assert (np_zeros (last_index - 0) = Ok (repeat 0 (Z.to_nat last_index))) as Hz.
  { unfold np_zeros. replace (last_index - 0 <? 0) with false
      by (symmetry; apply Z.ltb_ge; lia).
    replace (last_index - 0) with last_index by lia. reflexivity. }
  assert (arange 0 last_index = map Z.of_nat (seq 0 (Z.to_nat last_index))) as Har.
  { rewrite <- arange_0. f_equal. lia. }
  assert (forall n : nat, np_repeat last_index (Z.of_nat n)
                          = repeat (Z.of_nat (Z.to_nat last_index)) n) as Hrep.
  { intros n. unfold np_repeat. rewrite Nat2Z.id. f_equal. lia. }
  rewrite Hz, Har in H.
  split.
  all: destruct (is_HRRR model); cbn [andb] in *;
    [rewrite Hget in H; cbn [mbind result_bind] in H;
     destruct (negb (hour t `mod` 6 =? 0))|];
    cbn [mbind result_bind] in H; injection H as <- <-.
  - change 19 with (Z.of_nat 19). rewrite Hrep. reflexivity.
  - unfold size_of. rewrite Hrep. reflexivity.
  - unfold size_of. rewrite Hrep. reflexivity.
  - change 19 with (Z.of_nat 19). rewrite arange_0. reflexivity.
  - unfold size_of. rewrite arange_0. reflexivity.
  - unfold size_of. rewrite arange_0. reflexivity.
Qed.

(** X10: what a successful BestEstimate lookup returns: with [last] the
    position of the cutoff (the end of the axis without [asof]) and
    [nsteps] the number of periods retained for the run at [last], the
    reference-time array is [0 .. last-1] followed by [nsteps] copies of
    [last], and the period array is [last] zeros followed by
    [0 .. nsteps-1]; both have length [last + nsteps]. *)
Theorem BestEstimate_arrays (q : BestEstimate.t) (model : option Model)
    (time_index period_index : list Z) (ta pa : indexer) :
  BestEstimate.get_indexer q model time_index period_index = Ok (ta, pa) ->
  exists (last nsteps : nat) (t : Z) (tis pis : list Z),
    time_index !! last = Some t
    /\ match BestEstimate.asof q with
       | Some a => t = a
       | None => S last = length time_index
       end
    /\ nsteps = (if is_HRRR model && negb (hour t `mod` 6 =? 0)
                 then 19%nat else length period_index)
    /\ ta = IArray tis /\ pa = IArray pis
    /\ tis = map Z.of_nat (seq 0 last) ++ repeat (Z.of_nat last) nsteps
    /\ pis = repeat 0 last ++ map Z.of_nat (seq 0 nsteps)
    /\ length tis = (last + nsteps)%nat
    /\ length pis = (last + nsteps)%nat.
Proof.
  intros H.
  destruct (BestEstimate_get_indexer_inv _ _ _ _ _ _ H)
    as (last & nsteps & t & Ht & Hasof & _ & Hn & -> & ->).
  exists last, nsteps, t. do 2 eexists.
  split; [exact Ht|]. split; [exact Hasof|]. split; [exact Hn|].
  split; [reflexivity|]. split; [reflexivity|].
  split; [reflexivity|]. split; [reflexivity|].
  split; rewrite length_app, length_map, length_seq, repeat_length; lia.
Qed.

(** ** Indexing with the arrays of BestEstimate *)

Lemma getitem_array_app (axis a b : list Z) :
  getitem_array axis (a ++ b)
  = (xs ← getitem_array axis a; ys ← getitem_array axis b; Ok (xs ++ ys)).
Proof.
  induction a as [|i a IH]; simpl.
  - destruct (getitem_array axis b); reflexivity.
  - destruct (getitem_int axis i); simpl; [|reflexivity].
    rewrite IH. destruct (getitem_array axis a); simpl; [|reflexivity].
    destruct (getitem_array axis b); reflexivity.
Qed.

Lemma getitem_int_beyond (axis : list Z) (k : nat) :
  (length axis <= k)%nat -> getitem_int axis (Z.of_nat k) = Raise IndexError.
Proof.
  intros Hk. unfold getitem_int, norm_index.
  replace (Z.of_nat k <? Z.of_nat (length axis)) with false
    by (symmetry; apply Z.ltb_ge; lia).
  replace (Z.of_nat k <? 0) with false by (symmetry; apply Z.ltb_ge; lia).
  rewrite !andb_false_r. reflexivity.
Qed.

Lemma getitem_array_seq (axis : list Z) (s n : nat) :
  (s + n <= length axis)%nat ->
  getitem_array axis (map Z.of_nat (seq s n)) = Ok (take n (drop s axis)).
Proof.
  revert s. induction n as [|n IH]; intros s Hle; [reflexivity|].
  simpl.
  destruct (axis !! s) as [v|] eqn:Hs; [|apply lookup_ge_None in Hs; lia].
  rewrite (getitem_int_of_nat _ _ _ Hs). simpl.
  rewrite IH by lia. simpl.
  rewrite (drop_S _ _ _ Hs). reflexivity.
Qed.

Lemma getitem_array_seq_beyond (axis : list Z) (s n : nat) :
  (s <= length axis)%nat -> (length axis < s + n)%nat ->
  getitem_array axis (map Z.of_nat (seq s n)) = Raise IndexError.
Proof.
  revert s. induction n as [|n IH]; intros s Hle Hlt; [lia|].
  simpl. destruct (axis !! s) as [v|] eqn:Hs.
  - rewrite (getitem_int_of_nat _ _ _ Hs). simpl.
    apply lookup_lt_Some in Hs. rewrite IH by lia. reflexivity.
  - apply lookup_ge_None in Hs. rewrite getitem_int_beyond by exact Hs. reflexivity.
Qed.

Lemma getitem_array_repeat (axis : list Z) (k n : nat) (v : Z) :
  axis !! k = Some v ->
  getitem_array axis (repeat (Z.of_nat k) n) = Ok (repeat v n).
Proof.
  intros Hk. induction n as [|n IH]; [reflexivity|].
  simpl. rewrite (getitem_int_of_nat _ _ _ Hk). simpl. rewrite IH. reflexivity.
Qed.

Lemma zip_with_add_zeros (xs : list Z) (n : nat) :
  length xs = n -> zip_with Z.add xs (repeat 0 n) = xs.
Proof.
  revert n. induction xs as [|x xs IH]; intros n Hn; [destruct n; reflexivity|].
  destruct n as [|n]; [discriminate|]. simpl in *.
  rewrite IH by lia. f_equal. lia.
Qed.

Lemma zip_with_add_repeat (t : Z) (ys : list Z) (n : nat) :
  length ys = n -> zip_with Z.add (repeat t n) ys = map (fun p => t + p) ys.
Proof.
  revert n. induction ys as [|y ys IH]; intros n Hn; [destruct n; reflexivity|].
  destruct n as [|n]; [discriminate|]. simpl in *.
  rewrite IH by lia. reflexivity.
Qed.

Lemma increasing_tail (x : Z) (l : list Z) :
  increasing (x :: l) = true -> increasing l = true.
Proof. intros H. apply increasing_cons in H as [H _]. exact H. Qed.

Lemma increasing_app (l1 l2 : list Z) :
  increasing l1 = true -> increasing l2 = true ->
  (forall a b, a ∈ l1 -> b ∈ l2 -> a < b) ->
  increasing (l1 ++ l2) = true.
Proof.
  induction l1 as [|x l1 IH]; intros H1 H2 Hlt; [exact H2|].
  destruct (increasing_cons _ _ H1) as [H1' Hall].
  simpl. apply increasing_cons_intro.
  - apply Forall_app. split; [exact Hall|].
    apply Forall_forall. intros b Hb. apply Hlt; [apply list_elem_of_here | exact Hb].
  - apply IH; [exact H1' | exact H2|].
    intros a b Ha Hb. apply Hlt; [apply list_elem_of_further; exact Ha | exact Hb].
Qed.

Lemma increasing_take (n : nat) (l : list Z) :
  increasing l = true -> increasing (take n l) = true.
Proof.
  revert n. induction l as [|x l IH]; intros n H; [destruct n; reflexivity|].
  destruct n as [|n]; [reflexivity|].
  destruct (increasing_cons _ _ H) as [H' Hall].
  simpl. apply increasing_cons_intro; [|apply IH; exact H'].
  apply Forall_take. exact Hall.
Qed.

Lemma increasing_map_add (t : Z) (l : list Z) :
  increasing l = true -> increasing (map (fun p => t + p) l) = true.
Proof.
  induction l as [|x l IH]; intros H; [reflexivity|].
  destruct (increasing_cons _ _ H) as [H' Hall].
  simpl. apply increasing_cons_intro; [|apply IH; exact H'].
  rewrite Forall_forall in Hall. apply Forall_forall. intros y Hy.
  change (map (fun p => t + p) l) with ((fun p => t + p) <$> l) in Hy.
  apply list_elem_of_fmap in Hy as (p & -> & Hp). specialize (Hall _ Hp). lia.
Qed.

Lemma best_estimate_times_increasing (time_index period_index : list Z)
    (last nsteps : nat) (t : Z) :
  increasing time_index = true -> increasing period_index = true ->
  time_index !! last = Some t -> period_index !! 0%nat = Some 0 ->
  increasing (best_estimate_times time_index period_index last nsteps t) = true.
Proof.
  intros HT HP Ht Hp0. unfold best_estimate_times.
  apply increasing_app.
  - apply increasing_take. exact HT.
  - apply increasing_map_add, increasing_take. exact HP.
  - intros a b Ha Hb.
    apply list_elem_of_lookup in Ha as [i Hi].
    apply lookup_take_Some in Hi as [Hi Hlt].
    assert (a < t) by (eapply (increasing_lookup time_index i last); eauto).
    change (map (fun p => t + p) (take nsteps period_index))
      with ((fun p => t + p) <$> take nsteps period_index) in Hb.
    apply list_elem_of_fmap in Hb as (p & -> & Hp).
    apply list_elem_of_lookup in Hp as [j Hj].
    apply lookup_take_Some in Hj as [Hj _].
    assert (0 <= p); [|lia].
    destruct j as [|j]; [rewrite Hp0 in Hj; injection Hj as <-; lia|].
    assert (0 < p); [|lia].
    eapply (increasing_lookup period_index 0 (S j)); eauto. lia.
Qed.

(** What the two arrays of BestEstimate read on the axes. *)
Lemma BestEstimate_getitem_times (time_index : list Z) (last nsteps : nat) (t : Z) :
  time_index !! last = Some t ->
  getitem_array time_index
    (map Z.of_nat (seq 0 last) ++ repeat (Z.of_nat last) nsteps)
  = Ok (take last time_index ++ repeat t nsteps).
Proof.
  intros Ht. pose proof (lookup_lt_Some _ _ _ Ht) as Hlt.
  rewrite getitem_array_app, getitem_array_seq by (simpl; lia).
  cbn [mbind result_bind]. rewrite (getitem_array_repeat _ _ _ _ Ht). reflexivity.
Qed.

Lemma BestEstimate_getitem_periods (period_index : list Z) (last nsteps : nat) :
  period_index !! 0%nat = Some 0 ->
  getitem_array period_index (repeat 0 last ++ map Z.of_nat (seq 0 nsteps))
  = if (nsteps <=? length period_index)%nat
    then Ok (repeat 0 last ++ take nsteps period_index)
    else Raise IndexError.
Proof.
  intros Hp0. rewrite getitem_array_app.
  change (repeat 0 last) with (repeat (Z.of_nat 0) last).
  rewrite (getitem_array_repeat _ _ _ _ Hp0). cbn [mbind result_bind].
  destruct (Nat.leb_spec nsteps (length period_index)).
  - rewrite getitem_array_seq by (simpl; lia). reflexivity.
  - rewrite getitem_array_seq_beyond by (simpl; lia). reflexivity.
Qed.

Lemma getitem_int_zero (axis : list Z) (v : Z) :
  axis !! 0%nat = Some v -> getitem_int axis 0 = Ok v.
Proof. intros H. exact (getitem_int_of_nat axis 0 v H). Qed.

Section SelBestEstimate.

Context (pandas_sel : PandasIndex -> string -> label ->
                      result ForecastIndex.IndexSelResult)
        (pandas_getitem : PandasIndex -> dim_indexer -> result PandasIndex)
        (merge_sel_results : list ForecastIndex.IndexSelResult ->
                             result ForecastIndex.IndexSelResult).

Local Abbreviation sel := (ForecastIndex.sel pandas_sel pandas_getitem merge_sel_results).
Local Abbreviation time_name self := (name (reference_time (ForecastIndex._indexes self))).
Local Abbreviation period_name self := (name (period (ForecastIndex._indexes self))).
Local Abbreviation time_index self := (index (reference_time (ForecastIndex._indexes self))).
Local Abbreviation period_index self := (index (period (ForecastIndex._indexes self))).

Lemma sel_BestEstimate_inv (self : ForecastIndex.t) (q : BestEstimate.t)
    (res : ForecastIndex.IndexSelResult) :
  time_name self ≠ ForecastIndex.dummy_name self ->
  period_name self ≠ ForecastIndex.dummy_name self ->
  sel self {[ ForecastIndex.dummy_name self := LBestEstimate q ]} = Ok res ->
  exists (last nsteps : nat) (t : Z),
    time_index self !! last = Some t
    /\ match BestEstimate.asof q with
       | Some a => t = a
       | None => S last = length (time_index self)
       end
    /\ nsteps = (if is_HRRR (ForecastIndex.model self) && negb (hour t `mod` 6 =? 0)
                 then 19%nat else length (period_index self))
    /\ (nsteps <= length (period_index self))%nat
    /\ res = {| ForecastIndex.dim_indexers :=
                  <[period_name self :=
                      Along "valid_time" (repeat 0 last ++ map Z.of_nat (seq 0 nsteps))]>
                    (<[time_name self :=
                         Along "valid_time"
                           (map Z.of_nat (seq 0 last) ++ repeat (Z.of_nat last) nsteps)]> ∅);
                ForecastIndex.indexes :=
                  <["valid_time"%string :=
                      ForecastIndex.Pandas
                        (Values (best_estimate_times (time_index self)
                                   (period_index self) last nsteps t))
                        "valid_time"]> ∅;
                ForecastIndex.variables :=
                  {[ "valid_time"%string :=
                       {| dims := "valid_time";
                          data := Values (best_estimate_times (time_index self)
                                            (period_index self) last nsteps t);
                          attrs := [("standard_name", "time")]%string |} ]};
                ForecastIndex.drop_coords := ["forecast"%string] |}.
Proof.
  intros Hnt Hnp H.
  rewrite sel_singleton in H by assumption.
  unfold ForecastIndex.sel_forecast in H. cbn [ForecastIndex.label_get_indexer] in H.
  destruct (BestEstimate.get_indexer q _ _ _) as [[ta pa]|] eqn:Hg; [|discriminate].
  destruct (BestEstimate_get_indexer_inv _ _ _ _ _ _ Hg)
    as (last & nsteps & t & Ht & Hasof & Hp0 & Hn & -> & ->).
  cbn [mbind result_bind ForecastIndex.sel_match ForecastIndex.as_variable
       ForecastIndex.is_ConstantForecast negb getitem] in H.
  rewrite (BestEstimate_getitem_times _ _ _ _ Ht) in H.
  rewrite (BestEstimate_getitem_periods _ _ _ Hp0) in H.
  cbn [mbind result_bind] in H.
  destruct (Nat.leb_spec nsteps (length (period_index self))) as [Hle|];
    [|discriminate].
  cbn [mbind result_bind add_indexed] in H.
  pose proof (lookup_lt_Some _ _ _ Ht) as Hlt.
  assert (length (take last (time_index self)) = last) as Hlen1
    by (rewrite length_take; lia).
  assert (length (take nsteps (period_index self)) = nsteps) as Hlen2
    by (rewrite length_take; lia).
  rewrite !length_app, !repeat_length, Hlen1, Hlen2, Nat.eqb_refl in H.
  rewrite zip_with_app in H by (rewrite repeat_length; exact Hlen1).
  rewrite zip_with_add_zeros, zip_with_add_repeat in H by assumption.
  fold (best_estimate_times (time_index self) (period_index self) last nsteps t) in H.
  cbn [mbind result_bind default] in H. injection H as <-.
  exists last, nsteps, t.
  split; [exact Ht|]. split; [exact Hasof|]. split; [exact Hn|].
  split; [exact Hle|]. reflexivity.
Qed.

Lemma BestEstimate_get_indexer_zero (self : ForecastIndex.t) (q : BestEstimate.t) :
  (exists r, BestEstimate.get_indexer q (ForecastIndex.model self)
               (time_index self) (period_index self) = Ok r) ->
  period_index self !! 0%nat = Some 0.
Proof.
  intros [[ta pa] Hg].
  destruct (BestEstimate_get_indexer_inv _ _ _ _ _ _ Hg)
    as (_ & _ & _ & _ & _ & Hp0 & _). exact Hp0.
Qed.

(** X11: every selection that [sel] returns for a BestEstimate query has this
    content: both position arrays vary along the new dimension
    "valid_time"; the retained periods lie on the period axis; the valid
    times are the reference times before the cutoff followed by the
    cutoff plus each retained period; and on increasing axes these valid
    times are strictly increasing. *)
Theorem sel_BestEstimate_result (self : ForecastIndex.t) (q : BestEstimate.t)
    (res : ForecastIndex.IndexSelResult) :
  time_name self ≠ ForecastIndex.dummy_name self ->
  period_name self ≠ ForecastIndex.dummy_name self ->
  sel self {[ ForecastIndex.dummy_name self := LBestEstimate q ]} = Ok res ->
  exists (last nsteps : nat) (t : Z),
    time_index self !! last = Some t
    /\ match BestEstimate.asof q with
       | Some a => t = a
       | None => S last = length (time_index self)
       end
    /\ nsteps = (if is_HRRR (ForecastIndex.model self) && negb (hour t `mod` 6 =? 0)
                 then 19%nat else length (period_index self))
    /\ (nsteps <= length (period_index self))%nat
    /\ res = {| ForecastIndex.dim_indexers :=
                  <[period_name self :=
                      Along "valid_time" (repeat 0 last ++ map Z.of_nat (seq 0 nsteps))]>
                    (<[time_name self :=
                         Along "valid_time"
                           (map Z.of_nat (seq 0 last) ++ repeat (Z.of_nat last) nsteps)]> ∅);
                ForecastIndex.indexes :=
                  <["valid_time"%string :=
                      ForecastIndex.Pandas
                        (Values (best_estimate_times (time_index self)
                                   (period_index self) last nsteps t))
                        "valid_time"]> ∅;
                ForecastIndex.variables :=
                  {[ "valid_time"%string :=
                       {| dims := "valid_time";
                          data := Values (best_estimate_times (time_index self)
                                            (period_index self) last nsteps t);
                          attrs := [("standard_name", "time")]%string |} ]};
                ForecastIndex.drop_coords := ["forecast"%string] |}
    /\ (increasing (time_index self) = true ->
        increasing (period_index self) = true ->
        increasing (best_estimate_times (time_index self) (period_index self)
                      last nsteps t) = true).
Proof.
  intros Hnt Hnp H.
  destruct (sel_BestEstimate_inv _ _ _ Hnt Hnp H)
    as (last & nsteps & t & Ht & Hasof & Hn & Hle & Hres).
  pose proof (BestEstimate_get_indexer_zero self q) as Hzero.
  exists last, nsteps, t.
  split; [exact Ht|]. split; [exact Hasof|]. split; [exact Hn|].
  split; [exact Hle|]. split; [exact Hres|].
  intros HT HP. apply best_estimate_times_increasing; try assumption.
  apply Hzero. rewrite sel_singleton in H by assumption.
  unfold ForecastIndex.sel_forecast in H. cbn [ForecastIndex.label_get_indexer] in H.
  destruct (BestEstimate.get_indexer q _ _ _) as [r|]; [eauto | discriminate].
Qed.

(** X13: under HRRR, when the latest run is off-cycle (its hour is not a
    multiple of six) and the period axis starts at zero but has fewer
    than 19 periods, BestEstimate still resolves 19 period positions,
    and [sel] raises IndexError when it reads them. *)
Theorem sel_BestEstimate_beyond_axis (self : ForecastIndex.t) (t : Z) :
  time_name self ≠ ForecastIndex.dummy_name self ->
  period_name self ≠ ForecastIndex.dummy_name self ->
  ForecastIndex.model self = Some HRRR ->
  last (time_index self) = Some t ->
  hour t `mod` 6 ≠ 0 ->
  period_index self !! 0%nat = Some 0 ->
  (length (period_index self) < 19)%nat ->
  (exists ta pa,
      BestEstimate.get_indexer {| BestEstimate.asof := None |} (Some HRRR)
        (time_index self) (period_index self) = Ok (IArray ta, IArray pa)
      /\ length pa = (length (time_index self) - 1 + 19)%nat)
  /\ sel self {[ ForecastIndex.dummy_name self :=
                   LBestEstimate {| BestEstimate.asof := None |} ]}
     = Raise IndexError.
Proof.
  intros Hnt Hnp Hmodel Hlast Hhour Hp0 Hshort.
  pose proof (lookup_last_length _ _ Hlast) as Hl.
  pose proof (lookup_lt_Some _ _ _ Hl) as Hlen.
  assert (exists r, BestEstimate.get_indexer {| BestEstimate.asof := None |} (Some HRRR)
                      (time_index self) (period_index self) = Ok r) as [[ta pa] Hg].
  { unfold BestEstimate.get_indexer.
    rewrite (getitem_int_zero _ _ Hp0). cbn [mbind result_bind]. simpl negb.
    cbn [BestEstimate.asof is_HRRR mbind result_bind].
    unfold size_of.
    replace (Z.of_nat (length (time_index self)) - 1)
      with (Z.of_nat (length (time_index self) - 1)) by lia.
    rewrite (getitem_int_of_nat _ _ _ Hl). cbn [mbind result_bind].
    unfold np_zeros.
    replace (Z.of_nat (length (time_index self) - 1) - 0 <? 0) with false
      by (symmetry; apply Z.ltb_ge; lia).
    cbn [mbind result_bind]. eauto. }
  destruct (BestEstimate_get_indexer_inv _ _ _ _ _ _ Hg)
    as (last' & nsteps & t' & Ht' & Hasof & _ & Hn & -> & ->).
  cbn [BestEstimate.asof] in Hasof.
  assert (last' = (length (time_index self) - 1)%nat) as -> by lia.
  rewrite Hl in Ht'. injection Ht' as <-.
  assert (nsteps = 19%nat) as ->.
  { rewrite Hn. cbn [is_HRRR andb].
    apply Z.eqb_neq in Hhour. rewrite Hhour. reflexivity. }
  split.
  - do 2 eexists. split; [exact Hg|].
    rewrite length_app, repeat_length, length_map, length_seq. reflexivity.
  - rewrite sel_singleton by assumption.
    unfold ForecastIndex.sel_forecast. cbn [ForecastIndex.label_get_indexer].
    rewrite Hmodel, Hg.
    cbn [mbind result_bind ForecastIndex.sel_match ForecastIndex.as_variable
         ForecastIndex.is_ConstantForecast negb getitem].
    rewrite (BestEstimate_getitem_times _ _ _ _ Hl).
    rewrite (BestEstimate_getitem_periods _ _ _ Hp0).
    cbn [mbind result_bind].
    destruct (Nat.leb_spec 19 (length (period_index self))); [lia | reflexivity].
Qed.

(** X12: the forecast part of a best estimate is the model run of the cutoff:
    whenever [sel] returns a BestEstimate selection on a reference-time
    axis of unique labels, the cutoff is the reference time [asof] when one
    is given and the last reference time of the axis otherwise; [sel] also
    returns the ModelRun selection of that reference time, and the valid
    times of the best estimate are the reference times before the cutoff
    followed by the valid times of that model run. *)
Theorem BestEstimate_tail_is_model_run (self : ForecastIndex.t) (q : BestEstimate.t)
    (res : ForecastIndex.IndexSelResult) :
  time_name self ≠ ForecastIndex.dummy_name self ->
  period_name self ≠ ForecastIndex.dummy_name self ->
  NoDup (time_index self) ->
  sel self {[ ForecastIndex.dummy_name self := LBestEstimate q ]} = Ok res ->
  exists (last : nat) (t : Z) (run : ForecastIndex.IndexSelResult) (run_times : list Z),
    time_index self !! last = Some t
    /\ match BestEstimate.asof q with
       | Some a => t = a
       | None => S last = length (time_index self)
       end
    /\ sel self {[ ForecastIndex.dummy_name self := LModelRun {| ModelRun.time := t |} ]}
       = Ok run
    /\ data <$> ForecastIndex.variables run !! "valid_time"%string
       = Some (Values run_times)
    /\ data <$> ForecastIndex.variables res !! "valid_time"%string
       = Some (Values (take last (time_index self) ++ run_times)).
Proof.
  intros Hnt Hnp Hnd H.
  destruct (sel_BestEstimate_inv _ _ _ Hnt Hnp H)
    as (last & nsteps & t & Ht & Hasof & Hn & Hle & ->).
  exists last, t. do 2 eexists.
  split; [exact Ht|]. split; [exact Hasof|]. split.
  - rewrite sel_singleton by assumption.
    unfold ForecastIndex.sel_forecast. cbn [ForecastIndex.label_get_indexer].
    rewrite (ModelRun_get_indexer_found _ _ _ _ _ Hnd Ht).
    cbn [ForecastIndex.sel_match getitem mbind result_bind
         ForecastIndex.is_ConstantForecast negb].
    rewrite getitem_slice_retained, (getitem_int_of_nat _ _ _ Ht).
    cbn [mbind result_bind add_indexed default]. reflexivity.
  - cbn [ForecastIndex.variables]. rewrite !lookup_singleton_eq.
    cbn [fmap option_fmap option_map data].
    split; [reflexivity|].
    unfold best_estimate_times, retained_periods, retained_count.
    do 3 f_equal. rewrite Hn.
    destruct (is_HRRR (ForecastIndex.model self) && negb (hour t `mod` 6 =? 0));
      [reflexivity | rewrite firstn_all; reflexivity].
Qed.

End SelBestEstimate.

(** X14: on an empty reference-time axis a BestEstimate lookup always raises,
    once the period axis starts at zero: KeyError for a cutoff,
    IndexError under HRRR when the hour of the latest run is read, and
    without a model the ValueError of numpy for an array of negative
    length. *)
Theorem BestEstimate_empty_time_axis (q : BestEstimate.t) (model : option Model)
    (period_index : list Z) :
  period_index !! 0%nat = Some 0 ->
  BestEstimate.get_indexer q model [] period_index
  = Raise (match BestEstimate.asof q with
           | Some _ => KeyError
           | None => if is_HRRR model then IndexError
                     else ValueError NegativeDimensions
           end).
Proof.
  intros Hp0. unfold BestEstimate.get_indexer.
  rewrite (getitem_int_zero _ _ Hp0). cbn [mbind result_bind]. simpl negb.
  destruct (BestEstimate.asof q); [reflexivity|].
  destruct model as [[]|]; reflexivity.
Qed.

(** * Further properties of the dispatcher *)

Section Requests.

Context (pandas_sel : PandasIndex -> string -> label ->
                      result ForecastIndex.IndexSelResult)
        (pandas_getitem : PandasIndex -> dim_indexer -> result PandasIndex)
        (merge_sel_results : list ForecastIndex.IndexSelResult ->
                             result ForecastIndex.IndexSelResult).

Local Abbreviation sel := (ForecastIndex.sel pandas_sel pandas_getitem merge_sel_results).
Local Abbreviation time_name self := (name (reference_time (ForecastIndex._indexes self))).
Local Abbreviation period_name self := (name (period (ForecastIndex._indexes self))).
Local Abbreviation time_index self := (index (reference_time (ForecastIndex._indexes self))).
Local Abbreviation period_index self := (index (period (ForecastIndex._indexes self))).

(** X16: the second check of [sel] ("Selecting along ... cannot be combined
    with FMRC-style indexing") never fires when the dummy name differs
    from both axis names: a request that has an axis name and the dummy
    name among its keys is already refused by the first check. *)
Theorem sel_second_check_unreachable
    (self : ForecastIndex.t) (labels : gmap string label) :
  time_name self ≠ ForecastIndex.dummy_name self ->
  period_name self ≠ ForecastIndex.dummy_name self ->
  is_Some (labels !! time_name self) \/ is_Some (labels !! period_name self) ->
  is_Some (labels !! ForecastIndex.dummy_name self) ->
  sel self labels = Raise (ValueError CannotCombineWithNames).
Proof.
  intros Hnt Hnp Haxis Hd. unfold ForecastIndex.sel.
  rewrite bool_decide_eq_true_2 by assumption.
  assert (size labels ≠ 1%nat) as Hsz.
  { destruct Haxis as [Ht|Hp].
    - apply (size_two_keys labels (time_name self) (ForecastIndex.dummy_name self));
        assumption.
    - apply (size_two_keys labels (period_name self) (ForecastIndex.dummy_name self));
        assumption. }
  apply Nat.eqb_neq in Hsz. rewrite Hsz. reflexivity.
Qed.

(** X17: A request that names neither the dummy variable nor an axis, the
    empty request included, fails an assertion of [sel]. *)
Theorem sel_unknown_keys_fail_assertion
    (self : ForecastIndex.t) (labels : gmap string label) :
  labels !! ForecastIndex.dummy_name self = None ->
  labels !! time_name self = None ->
  labels !! period_name self = None ->
  sel self labels = Raise AssertionError.
Proof.
  intros Hd Ht Hp. unfold ForecastIndex.sel. cbn [ForecastIndex.names get_names].
  rewrite Hd, Ht, Hp.
  rewrite bool_decide_eq_false_2 by (intros [? ?]; discriminate). cbn [andb orb].
  destruct (map_to_list labels) as [|[key l] [|? ?]] eqn:Hl; try reflexivity.
  destruct (String.eqb_spec key (ForecastIndex.dummy_name self)) as [->|]; [|reflexivity].
  assert ((ForecastIndex.dummy_name self, l) ∈ map_to_list labels) as Hin
    by (rewrite Hl; apply list_elem_of_here).
  apply elem_of_map_to_list in Hin. congruence.
Qed.

Lemma getitem_array_in_range (axis a : list Z) :
  Forall (fun i => 0 <= i < size_of axis) a ->
  exists vs, getitem_array axis a = Ok vs
             /\ Forall2 (fun i v => axis !! Z.to_nat i = Some v) a vs.
Proof.
  induction 1 as [|i a Hi _ IH].
  - exists []. split; [reflexivity | constructor].
  - destruct IH as (vs & Hvs & Hall). unfold size_of in Hi.
    destruct (axis !! Z.to_nat i) as [v|] eqn:Hv;
      [|apply lookup_ge_None in Hv; lia].
    exists (v :: vs). simpl.
    replace i with (Z.of_nat (Z.to_nat i)) at 1 by lia.
    rewrite (getitem_int_of_nat _ _ _ Hv). simpl. rewrite Hvs. simpl.
    split; [reflexivity | constructor; assumption].
Qed.

(** X9: once ConstantForecast has resolved its two position arrays, [sel]
    succeeds: both arrays vary along the reference-time dimension, the
    reference-time index is replaced by the selected reference times,
    and no valid-time variable or index is attached. *)
Theorem sel_ConstantForecast_result (self : ForecastIndex.t) (target : Z)
    (tis pis : list Z) :
  time_name self ≠ ForecastIndex.dummy_name self ->
  period_name self ≠ ForecastIndex.dummy_name self ->
  ConstantForecast.get_indexer {| ConstantForecast.time := target |}
    (ForecastIndex.model self) (time_index self) (period_index self)
  = Ok (IArray tis, IArray pis) ->
  exists rts : list Z,
    Forall2 (fun i r => time_index self !! Z.to_nat i = Some r) tis rts
    /\ sel self {[ ForecastIndex.dummy_name self :=
                     LConstantForecast {| ConstantForecast.time := target |} ]}
       = Ok {| ForecastIndex.dim_indexers :=
                 <[period_name self := Along (time_name self) pis]>
                   (<[time_name self := Along (time_name self) tis]> ∅);
               ForecastIndex.indexes :=
                 <[time_name self :=
                     ForecastIndex.Pandas (Values rts) (time_name self)]> ∅;
               ForecastIndex.variables := ∅;
               ForecastIndex.drop_coords := ["forecast"%string] |}.
Proof.
  intros Hnt Hnp Hget.
  destruct (ConstantForecast_positions_range _ _ _ _ _ _ Hget) as [Hrange _].
  destruct (getitem_array_in_range _ _ Hrange) as (rts & Hrts & Hall).
  exists rts. split; [exact Hall|].
  rewrite sel_singleton by assumption.
  unfold ForecastIndex.sel_forecast. cbn [ForecastIndex.label_get_indexer].
  rewrite Hget.
  cbn [mbind result_bind ForecastIndex.sel_match ForecastIndex.as_variable getitem].
  rewrite Hrts. reflexivity.
Qed.

(** X19: plain selection along both axes in one request: each axis is
    selected by the host on its own, and the results are merged, in this
    order, with a third result that registers under the dummy name and
    the two axis names one new ForecastIndex, made of the two selected
    axes with the dummy name and the model of the original. *)
Theorem sel_plain_both_axes (self : ForecastIndex.t) (labels : gmap string label)
    (lt lp : label) (res_t res_p : ForecastIndex.IndexSelResult)
    (it ip : dim_indexer) (new_t new_p : PandasIndex) :
  labels !! ForecastIndex.dummy_name self = None ->
  labels !! time_name self = Some lt ->
  labels !! period_name self = Some lp ->
  pandas_sel (reference_time (ForecastIndex._indexes self)) (time_name self) lt
    = Ok res_t ->
  ForecastIndex.dim_indexers res_t !! time_name self = Some it ->
  pandas_getitem (reference_time (ForecastIndex._indexes self)) it = Ok new_t ->
  pandas_sel (period (ForecastIndex._indexes self)) (period_name self) lp
    = Ok res_p ->
  ForecastIndex.dim_indexers res_p !! period_name self = Some ip ->
  pandas_getitem (period (ForecastIndex._indexes self)) ip = Ok new_p ->
  let new_index :=
    ForecastIndex.Forecast
      {| ForecastIndex._indexes := {| reference_time := new_t; period := new_p |};
         ForecastIndex.dummy_name := ForecastIndex.dummy_name self;
         ForecastIndex.model := ForecastIndex.model self |} in
  sel self labels
  = merge_sel_results
      [res_t; res_p;
       {| ForecastIndex.dim_indexers := ∅;
          ForecastIndex.indexes :=
            <[period_name self := new_index]>
              (<[time_name self := new_index]>
                 {[ ForecastIndex.dummy_name self := new_index ]});
          ForecastIndex.variables := ∅;
          ForecastIndex.drop_coords := [] |}].
Proof.
  intros Hd Ht Hp Hst Hit Hgt Hsp Hip Hgp new_index.
  unfold ForecastIndex.sel. cbn [ForecastIndex.names get_names].
  rewrite Hd, Ht.
  rewrite bool_decide_eq_false_2 by (intros [? ?]; discriminate).
  rewrite bool_decide_eq_true_2 by eauto.
  cbn [andb orb]. unfold ForecastIndex.sel_plain, ForecastIndex.sel_axis.
  rewrite Hd, Ht, Hp.
  rewrite bool_decide_eq_false_2 by (intros [? ?]; discriminate).
  rewrite Hst. cbn [mbind result_bind]. rewrite Hit, Hgt. cbn [mbind result_bind].
  rewrite Hsp. cbn [mbind result_bind]. rewrite Hip, Hgp. cbn [mbind result_bind].
  reflexivity.
Qed.

End Requests.

(** * Construction from variables *)

Lemma Permutation_3_inv {A} (x y z : A) (l : list A) :
  Permutation [x; y; z] l ->
  l = [x; y; z] \/ l = [x; z; y] \/ l = [y; x; z]
  \/ l = [z; x; y] \/ l = [y; z; x] \/ l = [z; y; x].
Proof.
  intros Hp.
  pose proof (Permutation_length Hp) as Hlen.
  destruct l as [|a [|b [|c [|? ?]]]]; try discriminate. clear Hlen.
  assert (In x [a; b; c]) as Hx by (eapply Permutation_in; [exact Hp | left; reflexivity]).
  destruct Hx as [<-|[<-|[<-|[]]]].
  - apply Permutation_cons_inv, Permutation_length_2_inv in Hp as [[= <- <-]|[= <- <-]];
      auto.
  - apply (Permutation_cons_app_inv [a] [c]), Permutation_length_2_inv in Hp
      as [[= <- <-]|[= <- <-]]; auto 10.
  - apply (Permutation_cons_app_inv [a; b] []), Permutation_length_2_inv in Hp
      as [[= <- <-]|[= <- <-]]; auto 10.
Qed.

(** X20: three variables in any order, one tagged forecast_reference_time and
    one tagged forecast_period, both one-dimensional, and one scalar
    variable with neither tag, build the index: the axes carry the values
    and the names of the tagged variables, the dummy name is the name of
    the scalar variable, and the model is the one of the options. *)
Theorem from_variables_builds
    (variables : list (string * CoordVariable)) (options : option Model)
    (time_name period_name dummy_name : string) (times periods scalar : list Z)
    (tag : option string) :
  tag ≠ Some "forecast_reference_time"%string ->
  tag ≠ Some "forecast_period"%string ->
  Permutation
    [(time_name, {| standard_name := Some "forecast_reference_time"%string;
                    ndim := 1; var_values := times |});
     (period_name, {| standard_name := Some "forecast_period"%string;
                      ndim := 1; var_values := periods |});
     (dummy_name, {| standard_name := tag; ndim := 0; var_values := scalar |})]
    variables ->
  from_variables variables options
  = Built {| ForecastIndex._indexes :=
               {| reference_time := {| index := times; name := time_name |};
                  period := {| index := periods; name := period_name |} |};
             ForecastIndex.dummy_name := dummy_name;
             ForecastIndex.model := options |}.
Proof.
  intros Ht Hp Hperm.
  apply Permutation_3_inv in Hperm
    as [->|[->|[->|[->|[->| ->]]]]];
    unfold from_variables; cbn [length Nat.eqb negb];
    cbn [scan_variables standard_name ndim var_values PandasIndex_from_variables
         Nat.eqb fst snd];
    rewrite ?(bool_decide_eq_false_2 _ Ht), ?(bool_decide_eq_false_2 _ Hp);
    reflexivity.
Qed.

Lemma scan_variables_inv (k : string) (variables : list (string * CoordVariable))
    (st st' : option PandasIndex * option string) :
  scan_variables k variables st = Built st' ->
  (st'.1 = st.1
   \/ exists var_name var,
        (var_name, var) ∈ variables /\ standard_name var = Some k /\ ndim var = 1%nat
        /\ st'.1 = Some {| index := var_values var; name := var_name |})
  /\ (st'.2 = st.2
      \/ exists var_name var,
           (var_name, var) ∈ variables /\ standard_name var ≠ Some k
           /\ ndim var = 0%nat /\ st'.2 = Some var_name).
Proof.
  revert st. induction variables as [|[var_name var] variables IH]; intros st.
  - intros [= <-]. auto.
  - cbn [scan_variables].
    assert (forall st0,
              scan_variables k variables st0 = Built st' ->
              (st0.1 = st.1
               \/ exists n v, (n, v) ∈ (var_name, var) :: variables
                              /\ standard_name v = Some k /\ ndim v = 1%nat
                              /\ st0.1 = Some {| index := var_values v; name := n |}) ->
              (st0.2 = st.2
               \/ exists n v, (n, v) ∈ (var_name, var) :: variables
                              /\ standard_name v ≠ Some k /\ ndim v = 0%nat
                              /\ st0.2 = Some n) ->
              (st'.1 = st.1
               \/ exists n v, (n, v) ∈ (var_name, var) :: variables
                              /\ standard_name v = Some k /\ ndim v = 1%nat
                              /\ st'.1 = Some {| index := var_values v; name := n |})
              /\ (st'.2 = st.2
                  \/ exists n v, (n, v) ∈ (var_name, var) :: variables
                                 /\ standard_name v ≠ Some k /\ ndim v = 0%nat
                                 /\ st'.2 = Some n)) as Hstep.
    { intros st0 Hscan H1 H2. destruct (IH _ Hscan) as [I1 I2]. split.
      - destruct I1 as [->|(n & v & Hin & Hs & Hd & ->)]; [exact H1|].
        right. exists n, v. split; [apply list_elem_of_further; exact Hin | auto].
      - destruct I2 as [->|(n & v & Hin & Hs & Hd & ->)]; [exact H2|].
        right. exists n, v. split; [apply list_elem_of_further; exact Hin | auto]. }
    destruct (decide (standard_name var = Some k)) as [Hs|Hs].
    + rewrite bool_decide_eq_true_2 by exact Hs.
      unfold PandasIndex_from_variables.
      destruct (Nat.eqb_spec (ndim var) 1) as [Hd|]; [|discriminate].
      intros Hscan. apply (Hstep _ Hscan); [|left; reflexivity].
      right. exists var_name, var.
      split; [apply list_elem_of_here | auto].
    + rewrite bool_decide_eq_false_2 by exact Hs.
      destruct (Nat.eqb_spec (ndim var) 0) as [Hd|].
      * intros Hscan. apply (Hstep _ Hscan); [left; reflexivity|].
        right. exists var_name, var.
        split; [apply list_elem_of_here | auto].
      * intros Hscan. apply (Hstep _ Hscan); left; reflexivity.
Qed.

Lemma unique_key_value {A} (l : list (string * A)) (key : string) (v1 v2 : A) :
  NoDup l.*1 -> (key, v1) ∈ l -> (key, v2) ∈ l -> v1 = v2.
Proof.
  induction l as [|[k v] l IH]; intros Hnd H1 H2.
  - apply elem_of_nil in H1. contradiction.
  - cbn in Hnd. apply NoDup_cons in Hnd as [Hk Hnd].
    apply elem_of_cons in H1 as [E1|H1]; apply elem_of_cons in H2 as [E2|H2].
    + congruence.
    + exfalso. apply Hk. apply list_elem_of_fmap. exists (key, v2).
      split; [simpl; congruence | exact H2].
    + exfalso. apply Hk. apply list_elem_of_fmap. exists (key, v1).
      split; [simpl; congruence | exact H1].
    + auto.
Qed.

(** X21: every index that [from_variables] builds from a mapping (keys
    unique) comes from exactly three variables; its reference-time axis
    is a one-dimensional variable tagged forecast_reference_time, its
    period axis a one-dimensional variable tagged forecast_period, its
    dummy name the name of a scalar variable; the three names differ
    from one another, and the model is the one of the options. *)
Theorem from_variables_sound
    (variables : list (string * CoordVariable)) (options : option Model)
    (self : ForecastIndex.t) :
  NoDup variables.*1 ->
  from_variables variables options = Built self ->
  length variables = 3%nat
  /\ ForecastIndex.model self = options
  /\ (exists vt vp vd : CoordVariable,
        (name (reference_time (ForecastIndex._indexes self)), vt) ∈ variables
        /\ standard_name vt = Some "forecast_reference_time"%string
        /\ ndim vt = 1%nat
        /\ index (reference_time (ForecastIndex._indexes self)) = var_values vt
        /\ (name (period (ForecastIndex._indexes self)), vp) ∈ variables
        /\ standard_name vp = Some "forecast_period"%string
        /\ ndim vp = 1%nat
        /\ index (period (ForecastIndex._indexes self)) = var_values vp
        /\ (ForecastIndex.dummy_name self, vd) ∈ variables
        /\ ndim vd = 0%nat)
  /\ name (reference_time (ForecastIndex._indexes self)) ≠ ForecastIndex.dummy_name self
  /\ name (period (ForecastIndex._indexes self)) ≠ ForecastIndex.dummy_name self
  /\ name (reference_time (ForecastIndex._indexes self))
     ≠ name (period (ForecastIndex._indexes self)).
Proof.
  intros Hnd. unfold from_variables.
  destruct (Nat.eqb_spec (length variables) 3) as [Hlen|]; [|discriminate].
  cbn [negb].
  destruct (scan_variables "forecast_reference_time" variables (None, None))
    as [[rt d1]|] eqn:H1; [|discriminate].
  destruct (scan_variables "forecast_period" variables (None, d1))
    as [[pd d2]|] eqn:H2; [|discriminate].
  destruct rt as [rt|]; [|destruct pd; discriminate].
  destruct pd as [pd|]; [|discriminate].
  destruct d2 as [d|]; [|discriminate].
  intros [= <-]. cbn [ForecastIndex._indexes ForecastIndex.dummy_name
                      ForecastIndex.model reference_time period].
  apply scan_variables_inv in H1 as [R1 D1]. apply scan_variables_inv in H2 as [R2 D2].
  cbn [fst snd] in *.
  destruct R1 as [|(nt & vt & Hint & Hst & Hdt & [= ->])]; [discriminate|].
  destruct R2 as [|(np & vp & Hinp & Hsp & Hdp & [= ->])]; [discriminate|].
  assert (exists vd, (d, vd) ∈ variables /\ ndim vd = 0%nat) as (vd & Hind & Hdd).
  { destruct D2 as [<-|(n & v & Hin & _ & Hd0 & [= ->])]; [|eauto].
    destruct D1 as [|(n & v & Hin & _ & Hd0 & [= ->])]; [discriminate | eauto]. }
  cbn [name index].
  split; [exact Hlen|]. split; [reflexivity|]. split.
  { exists vt, vp, vd. repeat split; assumption. }
  split; [|split].
  - intros ->. pose proof (unique_key_value _ _ _ _ Hnd Hint Hind) as ->. congruence.
  - intros ->. pose proof (unique_key_value _ _ _ _ Hnd Hinp Hind) as ->. congruence.
  - intros ->. pose proof (unique_key_value _ _ _ _ Hnd Hint Hinp) as ->. congruence.
Qed.

(** * The availability rules of the three HRRR paths *)

(** X15: under HRRR the three paths do not agree on a cell (r, p) with p
    of at least eighteen hours and one microsecond when the hour of r is
    0, 12 or 18: ModelRun retains the whole period axis for r,
    ConstantOffset keeps r for the step p, and ConstantForecast never
    returns the pair for the valid time r + p. *)
Theorem HRRR_rules_disagree (time_index period_index : list Z)
    (i j : nat) (r p : Z) :
  NoDup time_index -> NoDup period_index ->
  time_index !! i = Some r -> period_index !! j = Some p ->
  hours 18 + 1000 <= p ->
  hour r `mod` 6 = 0 -> hour r ≠ 6 ->
  ModelRun.get_indexer {| ModelRun.time := r |} (Some HRRR) time_index period_index
    = Ok (IInt (Z.of_nat i), slice_all)
  /\ (exists a : list Z,
        ConstantOffset.get_indexer {| ConstantOffset.step := p |} (Some HRRR)
          time_index period_index = Ok (IArray a, IInt (Z.of_nat j))
        /\ Z.of_nat i ∈ a)
  /\ (forall tis pis : list Z,
        ConstantForecast.get_indexer {| ConstantForecast.time := r + p |} (Some HRRR)
          time_index period_index = Ok (IArray tis, IArray pis) ->
        (Z.of_nat i, Z.of_nat j) ∉ zip tis pis).
Proof.
  intros HndT HndP Hi Hj Hp Hmod Hsix.
  split; [|split].
  - rewrite (ModelRun_get_indexer_found _ _ _ _ _ HndT Hi).
    unfold retained_count. cbn [is_HRRR andb].
    rewrite Hmod. reflexivity.
  - rewrite (ConstantOffset_time_selector _ _ _ _ (Z.of_nat j)).
    2:{ unfold get_indexer. rewrite bool_decide_eq_true_2 by assumption.
        cbn [ConstantOffset.step map].
        rewrite (position_lookup_NoDup _ _ _ HndP Hj). reflexivity. }
    rewrite beyond_18h_spec. cbn [is_HRRR andb ConstantOffset.step].
    replace (hours 18 + 1000 <=? p) with true by (symmetry; apply Z.leb_le; exact Hp).
    eexists. split; [reflexivity|].
    rewrite map_map.
    destruct (boolean_index_arange_map (fun t => hour t `mod` 6 =? 0) time_index 0)
      as (Hmem & _ & _).
    apply Hmem. exists i, r.
    split; [lia | split; [exact Hi | apply Z.eqb_eq; exact Hmod]].
  - intros tis pis Hget Hin.
    destruct (ConstantForecast_ok_inv _ _ _ _ _ Hget) as [_ [m [Hlast Hbounds]]].
    pose proof (ConstantForecast_get_indexer_eq (Some HRRR) time_index period_index
                  (r + p) m HndP Hlast Hbounds) as Heq.
    unfold window in Heq. cbn zeta in Heq.
    rewrite Heq in Hget. injection Hget as <- <-.
    change (@map (Z * Z) Z fst) with (@fmap list _ (Z * Z) Z fst) in Hin.
    change (@map (Z * Z) Z snd) with (@fmap list _ (Z * Z) Z snd) in Hin.
    rewrite zip_fst_snd in Hin.
    destruct (kept_pairs_sound _ _ _ _ _ _ _ Hin)
      as (k & jn & t & Hik & _ & Hk & _ & Hkeep).
    apply lookup_take_Some in Hk as [Hk _]. rewrite lookup_drop in Hk.
    assert (t = r) as ->.
    { match type of Hk with _ !! ?n = _ => replace n with i in Hk by lia end.
      congruence. }
    unfold ConstantForecast.model_keeps in Hkeep. cbn [is_HRRR] in Hkeep.
    replace (r + p - r) with p in Hkeep by lia.
    replace (hours 18 <? p) with true in Hkeep by (symmetry; apply Z.ltb_lt; lia).
    apply Z.eqb_neq in Hsix. rewrite Hsix in Hkeep. discriminate.
Qed.

Lemma HRRR_rules_disagree_witness :
  ModelRun.get_indexer {| ModelRun.time := hours 12 |} (Some HRRR)
    (scenario_times 0) scenario_periods
    = Ok (IInt (Z.of_nat 12), slice_all)
  /\ (exists a : list Z,
        ConstantOffset.get_indexer {| ConstantOffset.step := hours 20 |} (Some HRRR)
          (scenario_times 0) scenario_periods = Ok (IArray a, IInt (Z.of_nat 20))
        /\ Z.of_nat 12 ∈ a)
  /\ (forall tis pis : list Z,
        ConstantForecast.get_indexer {| ConstantForecast.time := hours 12 + hours 20 |}
          (Some HRRR) (scenario_times 0) scenario_periods
        = Ok (IArray tis, IArray pis) ->
        (Z.of_nat 12, Z.of_nat 20) ∉ zip tis pis).
Proof.
  apply (HRRR_rules_disagree (scenario_times 0) scenario_periods 12 20
           (hours 12) (hours 20)).
  - apply increasing_NoDup. vm_compute. reflexivity.
  - apply increasing_NoDup. vm_compute. reflexivity.
  - reflexivity.
  - reflexivity.
  - vm_compute. discriminate.
  - vm_compute. reflexivity.
  - vm_compute. discriminate.
Defined.

(** * The coordinate dropped by FMRC-style indexing *)

Section Dropped.

Context (pandas_sel : PandasIndex -> string -> label ->
                      result ForecastIndex.IndexSelResult)
        (pandas_getitem : PandasIndex -> dim_indexer -> result PandasIndex)
        (merge_sel_results : list ForecastIndex.IndexSelResult ->
                             result ForecastIndex.IndexSelResult).

(** X18: whatever the dummy variable is called, every selection that [sel]
    returns for a request under the dummy name asks to drop the
    coordinate named "forecast", and only that one. *)
Theorem sel_drops_forecast (self : ForecastIndex.t) (l : label)
    (res : ForecastIndex.IndexSelResult) :
  name (reference_time (ForecastIndex._indexes self)) ≠ ForecastIndex.dummy_name self ->
  name (period (ForecastIndex._indexes self)) ≠ ForecastIndex.dummy_name self ->
  ForecastIndex.sel pandas_sel pandas_getitem merge_sel_results self
    {[ ForecastIndex.dummy_name self := l ]} = Ok res ->
  ForecastIndex.drop_coords res = ["forecast"%string].
Proof.
  intros Hnt Hnp H. rewrite sel_singleton in H by assumption.
  unfold ForecastIndex.sel_forecast in H.
  destruct (ForecastIndex.label_get_indexer l _ _ _) as [[ti pi]|];
    cbn [mbind result_bind] in H; [|discriminate].
  destruct (ForecastIndex.sel_match self l _ _ ti pi) as [[[? ?] ?]|];
    cbn [mbind result_bind] in H; [|discriminate].
  destruct (negb (ForecastIndex.is_ConstantForecast l)).
  - destruct (getitem _ ti); cbn [mbind result_bind] in H; [|discriminate].
    destruct (getitem _ pi); cbn [mbind result_bind] in H; [|discriminate].
    destruct (add_indexed _ _); cbn [mbind result_bind] in H; [|discriminate].
    injection H as <-. reflexivity.
  - injection H as <-. reflexivity.
Qed.

End Dropped.

Lemma sel_drops_forecast_witness :
  exists res,
    ForecastIndex.sel exact_sel exact_getitem last_result
      {| ForecastIndex._indexes :=
           {| reference_time := {| index := [0; hours 1]; name := "init" |};
              period := {| index := [0; hours 1]; name := "lead" |} |};
         ForecastIndex.dummy_name := "fmrc";
         ForecastIndex.model := None |}
      {[ "fmrc"%string := LBestEstimate {| BestEstimate.asof := None |} ]} = Ok res
    /\ ForecastIndex.drop_coords res = ["forecast"%string].
Proof.
  eexists. split; [vm_compute; reflexivity|].
  apply (sel_drops_forecast exact_sel exact_getitem last_result
           {| ForecastIndex._indexes :=
                {| reference_time := {| index := [0; hours 1]; name := "init" |};
                   period := {| index := [0; hours 1]; name := "lead" |} |};
              ForecastIndex.dummy_name := "fmrc";
              ForecastIndex.model := None |}
           (LBestEstimate {| BestEstimate.asof := None |})).
  - discriminate.
  - discriminate.
  - vm_compute. reflexivity.
Defined.

(** * From a cell to its valid time and back *)

(** X8: the diagonal cut finds every cell again: on increasing axes with
    non-negative periods, the period axis ending in [max_timedelta], for
    the reference time at position [i] and the period at position [j]
    whose valid time less [max_timedelta] is a timestamp pandas can hold,
    ConstantForecast at their valid time succeeds, and returns the pair
    of positions (i, j) exactly when the model mask keeps the cell;
    without a model it always does. *)
Theorem ConstantForecast_finds_cell (model : option Model)
    (time_index period_index : list Z) (i j : nat) (r p max_timedelta : Z) :
  increasing time_index = true ->
  increasing period_index = true ->
  Forall (fun p => 0 <= p) period_index ->
  time_index !! i = Some r ->
  period_index !! j = Some p ->
  last period_index = Some max_timedelta ->
  in_bounds (r + p - max_timedelta) = true ->
  exists tis pis : list Z,
    ConstantForecast.get_indexer {| ConstantForecast.time := r + p |} model
      time_index period_index = Ok (IArray tis, IArray pis)
    /\ ((Z.of_nat i, Z.of_nat j) ∈ zip tis pis
        <-> ConstantForecast.model_keeps model r p = true).
Proof.
  intros HincT HincP Hnonneg Hi Hj Hlast Hbounds.
  pose proof (increasing_NoDup _ HincP) as Hnd.
  rename max_timedelta into m.
  pose proof (ConstantForecast_get_indexer_eq model time_index period_index
                (r + p) m Hnd Hlast Hbounds) as Heq.
  unfold window in Heq. cbn zeta in Heq.
  set (lo := count_while (fun y => y <? r + p - m) time_index) in *.
  set (hi := count_while (fun y => y <=? r + p) time_index) in *.
  set (ts := take (hi - lo) (drop lo time_index)) in *.
  set (pairs := kept_pairs model period_index (r + p) (Z.of_nat lo) ts) in *.
  do 2 eexists. split; [exact Heq|].
  change (@map (Z * Z) Z fst) with (@fmap list _ (Z * Z) Z fst).
  change (@map (Z * Z) Z snd) with (@fmap list _ (Z * Z) Z snd).
  rewrite zip_fst_snd. split.
  - intros Hin.
    destruct (kept_pairs_sound _ _ _ _ _ _ _ Hin)
      as (k & jn & t & Hik & _ & Hk & _ & Hkeep).
    unfold ts in Hk. apply lookup_take_Some in Hk as [Hk _]. rewrite lookup_drop in Hk.
    replace (lo + k)%nat with i in Hk by lia.
    assert (t = r) as -> by congruence.
    replace (r + p - r) with p in Hkeep by lia. exact Hkeep.
  - intros Hkeep.
    assert (p <= m) as Hmax by (eapply increasing_le_last; eauto).
    assert (0 <= p) as Hpos.
    { rewrite Forall_forall in Hnonneg. apply Hnonneg.
      eapply list_elem_of_lookup_2; eauto. }
    assert (i < hi)%nat as Hhi.
    { apply (count_while_lookup (fun y => y <=? r + p)) with (r := r); auto.
      - intros x y Hxy Hy. apply Z.leb_le in Hy. apply Z.leb_le. lia.
      - apply Z.leb_le. lia. }
    assert (lo <= i)%nat as Hlo.
    { destruct (le_lt_dec lo i) as [|Hlt]; [assumption|].
      apply (count_while_lookup (fun y => y <? r + p - m)) with (r := r) in Hlt; auto.
      - apply Z.ltb_lt in Hlt. lia.
      - intros x y Hxy Hy. apply Z.ltb_lt in Hy. apply Z.ltb_lt. lia. }
    assert (ts !! (i - lo)%nat = Some r) as Hts.
    { unfold ts. rewrite lookup_take_lt, lookup_drop by lia.
      replace (lo + (i - lo))%nat with i by lia. exact Hi. }
    assert (position (r + p - r) period_index = Some j) as Hposn.
    { apply position_lookup_NoDup; [assumption|].
      replace (r + p - r) with p by lia. exact Hj. }
    assert (ConstantForecast.model_keeps model r (r + p - r) = true) as Hm'
      by (replace (r + p - r) with p by lia; exact Hkeep).
    pose proof (kept_pairs_complete model period_index (r + p) (Z.of_nat lo)
                  ts _ _ _ Hts Hposn Hm') as Hin.
    replace (Z.of_nat lo + Z.of_nat (i - lo)) with (Z.of_nat i) in Hin by lia.
    exact Hin.
Qed.

Lemma ConstantForecast_finds_cell_witness :
  exists tis pis : list Z,
    ConstantForecast.get_indexer {| ConstantForecast.time := hours 12 + hours 20 |}
      (Some HRRR) (scenario_times 0) scenario_periods = Ok (IArray tis, IArray pis)
    /\ ((Z.of_nat 12, Z.of_nat 20) ∈ zip tis pis
        <-> ConstantForecast.model_keeps (Some HRRR) (hours 12) (hours 20) = true).
Proof.
  apply (ConstantForecast_finds_cell (Some HRRR) (scenario_times 0) scenario_periods
           12 20 (hours 12) (hours 20) (hours 48)).
  - vm_compute. reflexivity.
  - vm_compute. reflexivity.
  - refine (bool_decide_unpack _ _). vm_compute. exact I.
  - reflexivity.
  - reflexivity.
  - reflexivity.
  - vm_compute. reflexivity.
Defined.

(** * The properties above on concrete cubes *)


Lemma sel_ModelRun_absent_witness :
  ModelRun.get_indexer {| ModelRun.time := hours 5 |} (Some HRRR)
    [0; hours 1] [0; hours 1] = Raise KeyError
  /\ ForecastIndex.sel exact_sel exact_getitem last_result (small_cube (Some HRRR))
       {[ "forecast"%string := LModelRun {| ModelRun.time := hours 5 |} ]}
     = Raise KeyError
  /\ kind_of KeyError = Some NotFound.
Proof.
  apply (sel_ModelRun_absent exact_sel exact_getitem last_result
           (small_cube (Some HRRR)) (hours 5)).
  - discriminate.
  - discriminate.
  - apply position_None. reflexivity.
Defined.



Lemma ConstantForecast_positions_in_order_witness :
  increasing [0; 1] = true
  /\ Forall (fun i => 0 <= i < size_of [0; hours 1]) [0; 1]
  /\ Forall (fun j => 0 <= j < size_of [0; hours 1]) [1; 0].
Proof.
  apply (ConstantForecast_positions_in_order (Some HRRR) [0; hours 1] [0; hours 1]
           (hours 1) [0; 1] [1; 0]).
  reflexivity.
Defined.

Lemma ConstantForecast_model_only_removes_witness :
  exists tis' pis' : list Z,
    ConstantForecast.get_indexer {| ConstantForecast.time := hours 30 |} None
      (scenario_times 0) scenario_periods = Ok (IArray tis', IArray pis')
    /\ zip [6; 12; 13; 14; 15; 16; 17; 18; 19; 20; 21; 22; 23]
           [24; 18; 17; 16; 15; 14; 13; 12; 11; 10; 9; 8; 7]
       `sublist_of` zip tis' pis'.
Proof.
  apply (ConstantForecast_model_only_removes (Some HRRR) (scenario_times 0)
           scenario_periods (hours 30)).
  vm_compute. reflexivity.
Defined.

Lemma BestEstimate_arrays_witness :
  exists (last nsteps : nat) (t : Z) (tis pis : list Z),
    [0; hours 1] !! last = Some t
    /\ S last = length [0; hours 1]
    /\ nsteps = (if is_HRRR (Some HRRR) && negb (hour t `mod` 6 =? 0)
                 then 19%nat else length [0; hours 1])
    /\ IArray ([0] ++ repeat 1 19) = IArray tis
    /\ IArray ([0] ++ map Z.of_nat (seq 0 19)) = IArray pis
    /\ tis = map Z.of_nat (seq 0 last) ++ repeat (Z.of_nat last) nsteps
    /\ pis = repeat 0 last ++ map Z.of_nat (seq 0 nsteps)
    /\ length tis = (last + nsteps)%nat
    /\ length pis = (last + nsteps)%nat.
Proof.
  apply (BestEstimate_arrays {| BestEstimate.asof := None |} (Some HRRR)
           [0; hours 1] [0; hours 1]).
  reflexivity.
Defined.

Lemma sel_BestEstimate_result_witness :
  exists (res : ForecastIndex.IndexSelResult) (last nsteps : nat) (t : Z),
    ForecastIndex.sel exact_sel exact_getitem last_result (small_cube None)
      {[ "forecast"%string := LBestEstimate {| BestEstimate.asof := None |} ]} = Ok res
    /\ [0; hours 1] !! last = Some t
    /\ S last = length [0; hours 1]
    /\ nsteps = length [0; hours 1]
    /\ (nsteps <= length [0%Z; hours 1])%nat
    /\ res = {| ForecastIndex.dim_indexers :=
                  <["step"%string :=
                      Along "valid_time" (repeat 0 last ++ map Z.of_nat (seq 0 nsteps))]>
                    (<["time"%string :=
                         Along "valid_time"
                           (map Z.of_nat (seq 0 last) ++ repeat (Z.of_nat last) nsteps)]> ∅);
                ForecastIndex.indexes :=
                  <["valid_time"%string :=
                      ForecastIndex.Pandas
                        (Values (best_estimate_times [0; hours 1] [0; hours 1]
                                   last nsteps t))
                        "valid_time"]> ∅;
                ForecastIndex.variables :=
                  {[ "valid_time"%string :=
                       {| dims := "valid_time";
                          data := Values (best_estimate_times [0; hours 1] [0; hours 1]
                                            last nsteps t);
                          attrs := [("standard_name", "time")]%string |} ]};
                ForecastIndex.drop_coords := ["forecast"%string] |}
    /\ (increasing [0; hours 1] = true ->
        increasing [0; hours 1] = true ->
        increasing (best_estimate_times [0; hours 1] [0; hours 1] last nsteps t) = true).
Proof.
  eexists.
  destruct (sel_BestEstimate_result exact_sel exact_getitem last_result
              (small_cube None) {| BestEstimate.asof := None |} _
              ltac:(discriminate) ltac:(discriminate) ltac:(vm_compute; reflexivity))
    as (last & nsteps & t & H).
  exists last, nsteps, t. split; [vm_compute; reflexivity | exact H].
Defined.

Lemma sel_BestEstimate_beyond_axis_witness :
  (exists ta pa,
      BestEstimate.get_indexer {| BestEstimate.asof := None |} (Some HRRR)
        [0; hours 1] [0; hours 1] = Ok (IArray ta, IArray pa)
      /\ length pa = (length [0%Z; hours 1] - 1 + 19)%nat)
  /\ ForecastIndex.sel exact_sel exact_getitem last_result (small_cube (Some HRRR))
       {[ "forecast"%string := LBestEstimate {| BestEstimate.asof := None |} ]}
     = Raise IndexError.
Proof.
  apply (sel_BestEstimate_beyond_axis exact_sel exact_getitem last_result
           (small_cube (Some HRRR)) (hours 1)).
  - discriminate.
  - discriminate.
  - reflexivity.
  - reflexivity.
  - vm_compute. discriminate.
  - reflexivity.
  - vm_compute. lia.
Defined.

Lemma BestEstimate_empty_time_axis_witness :
  BestEstimate.get_indexer {| BestEstimate.asof := None |} None [] [0; hours 1]
  = Raise (ValueError NegativeDimensions).
Proof.
  apply (BestEstimate_empty_time_axis {| BestEstimate.asof := None |} None [0; hours 1]).
  reflexivity.
Defined.

Lemma sel_second_check_unreachable_witness :
  ForecastIndex.sel exact_sel exact_getitem last_result (small_cube None)
    (<[ "step"%string := LPlain (PLabel 0) ]>
       {[ "forecast"%string := LBestEstimate {| BestEstimate.asof := None |} ]})
  = Raise (ValueError CannotCombineWithNames).
Proof.
  apply (sel_second_check_unreachable exact_sel exact_getitem last_result
           (small_cube None)).
  - discriminate.
  - discriminate.
  - right. eexists. vm_compute. reflexivity.
  - eexists. vm_compute. reflexivity.
Defined.

Lemma sel_unknown_keys_fail_assertion_witness :
  ForecastIndex.sel exact_sel exact_getitem last_result (small_cube None)
    {[ "height"%string := LPlain (PLabel 0) ]}
  = Raise AssertionError.
Proof.
  apply (sel_unknown_keys_fail_assertion exact_sel exact_getitem last_result
           (small_cube None)).
  - vm_compute. reflexivity.
  - vm_compute. reflexivity.
  - vm_compute. reflexivity.
Defined.

Lemma sel_ConstantForecast_result_witness :
  exists rts : list Z,
    Forall2 (fun i r => [0; hours 1] !! Z.to_nat i = Some r) [0; 1] rts
    /\ ForecastIndex.sel exact_sel exact_getitem last_result (small_cube (Some HRRR))
         {[ "forecast"%string :=
              LConstantForecast {| ConstantForecast.time := hours 1 |} ]}
       = Ok {| ForecastIndex.dim_indexers :=
                 <["step"%string := Along "time" [1; 0]]>
                   (<["time"%string := Along "time" [0; 1]]> ∅);
               ForecastIndex.indexes :=
                 <["time"%string := ForecastIndex.Pandas (Values rts) "time"]> ∅;
               ForecastIndex.variables := ∅;
               ForecastIndex.drop_coords := ["forecast"%string] |}.
Proof.
  apply (sel_ConstantForecast_result exact_sel exact_getitem last_result
           (small_cube (Some HRRR)) (hours 1) [0; 1] [1; 0]).
  - discriminate.
  - discriminate.
  - reflexivity.
Defined.

Lemma sel_plain_both_axes_witness :
  exists res_t res_p,
    ForecastIndex.sel exact_sel exact_getitem last_result (small_cube None)
      (<[ "step"%string := LPlain (PLabel (hours 1)) ]>
         {[ "time"%string := LPlain (PLabel 0) ]})
    = last_result
        [res_t; res_p;
         {| ForecastIndex.dim_indexers := ∅;
            ForecastIndex.indexes :=
              <["step"%string := ForecastIndex.Forecast (cube None [0] [hours 1])]>
                (<["time"%string := ForecastIndex.Forecast (cube None [0] [hours 1])]>
                   {[ "forecast"%string :=
                        ForecastIndex.Forecast (cube None [0] [hours 1]) ]});
            ForecastIndex.variables := ∅;
            ForecastIndex.drop_coords := [] |}].
Proof.
  do 2 eexists.
  apply (sel_plain_both_axes exact_sel exact_getitem last_result (small_cube None)
           _ (LPlain (PLabel 0)) (LPlain (PLabel (hours 1))) _ _
           (Raw (IInt 0)) (Raw (IInt 1))
           {| index := [0]; name := "time" |}
           {| index := [hours 1]; name := "step" |}).
  - vm_compute. reflexivity.
  - vm_compute. reflexivity.
  - vm_compute. reflexivity.
  - reflexivity.
  - vm_compute. reflexivity.
  - reflexivity.
  - reflexivity.
  - vm_compute. reflexivity.
  - reflexivity.
Defined.

Lemma from_variables_builds_witness :
  from_variables
    [("forecast"%string, {| standard_name := None; ndim := 0; var_values := [0] |});
     ("step"%string, {| standard_name := Some "forecast_period"%string;
                        ndim := 1; var_values := [0; hours 1] |});
     ("time"%string, {| standard_name := Some "forecast_reference_time"%string;
                        ndim := 1; var_values := [0; hours 1] |})]
    (Some HRRR)
  = Built (small_cube (Some HRRR)).
Proof.
  apply (from_variables_builds _ (Some HRRR) "time" "step" "forecast"
           [0; hours 1] [0; hours 1] [0] None).
  - discriminate.
  - discriminate.
  - apply perm_trans with
      [("time"%string, {| standard_name := Some "forecast_reference_time"%string;
                          ndim := 1; var_values := [0; hours 1] |});
       ("forecast"%string, {| standard_name := None; ndim := 0; var_values := [0] |});
       ("step"%string, {| standard_name := Some "forecast_period"%string;
                          ndim := 1; var_values := [0; hours 1] |})].
    + apply perm_skip, perm_swap.
    + apply perm_trans with
        [("forecast"%string, {| standard_name := None; ndim := 0; var_values := [0] |});
         ("time"%string, {| standard_name := Some "forecast_reference_time"%string;
                            ndim := 1; var_values := [0; hours 1] |});
         ("step"%string, {| standard_name := Some "forecast_period"%string;
                            ndim := 1; var_values := [0; hours 1] |})].
      * apply perm_swap.
      * apply perm_skip, perm_swap.
Defined.

Lemma from_variables_sound_witness :
  length [("time"%string, {| standard_name := Some "forecast_reference_time"%string;
                             ndim := 1; var_values := [0; hours 1] |});
          ("step"%string, {| standard_name := Some "forecast_period"%string;
                             ndim := 1; var_values := [0; hours 1] |});
          ("forecast"%string, {| standard_name := None; ndim := 0; var_values := [0] |})]
  = 3%nat
  /\ ForecastIndex.model (small_cube None) = None
  /\ (exists vt vp vd : CoordVariable,
        ("time"%string, vt)
          ∈ [("time"%string, {| standard_name := Some "forecast_reference_time"%string;
                                ndim := 1; var_values := [0; hours 1] |});
             ("step"%string, {| standard_name := Some "forecast_period"%string;
                                ndim := 1; var_values := [0; hours 1] |});
             ("forecast"%string, {| standard_name := None; ndim := 0;
                                    var_values := [0] |})]
        /\ standard_name vt = Some "forecast_reference_time"%string
        /\ ndim vt = 1%nat
        /\ [0; hours 1] = var_values vt
        /\ ("step"%string, vp)
             ∈ [("time"%string, {| standard_name := Some "forecast_reference_time"%string;
                                   ndim := 1; var_values := [0; hours 1] |});
                ("step"%string, {| standard_name := Some "forecast_period"%string;
                                   ndim := 1; var_values := [0; hours 1] |});
                ("forecast"%string, {| standard_name := None; ndim := 0;
                                       var_values := [0] |})]
        /\ standard_name vp = Some "forecast_period"%string
        /\ ndim vp = 1%nat
        /\ [0; hours 1] = var_values vp
        /\ ("forecast"%string, vd)
             ∈ [("time"%string, {| standard_name := Some "forecast_reference_time"%string;
                                   ndim := 1; var_values := [0; hours 1] |});
                ("step"%string, {| standard_name := Some "forecast_period"%string;
                                   ndim := 1; var_values := [0; hours 1] |});
                ("forecast"%string, {| standard_name := None; ndim := 0;
                                       var_values := [0] |})]
        /\ ndim vd = 0%nat)
  /\ "time"%string ≠ "forecast"%string
  /\ "step"%string ≠ "forecast"%string
  /\ "time"%string ≠ "step"%string.
Proof.
  apply (from_variables_sound _ None (small_cube None)).
  - refine (bool_decide_unpack _ _). vm_compute. exact I.
  - reflexivity.
Defined.

Lemma BestEstimate_tail_is_model_run_witness :
  exists (res : ForecastIndex.IndexSelResult) (last : nat) (t : Z)
         (run : ForecastIndex.IndexSelResult) (run_times : list Z),
    ForecastIndex.sel exact_sel exact_getitem last_result (cube (Some HRRR) [0; hours 6] [0; hours 1])
      {[ "forecast"%string := LBestEstimate {| BestEstimate.asof := None |} ]} = Ok res
    /\ [0; hours 6] !! last = Some t
    /\ S last = length [0; hours 6]
    /\ ForecastIndex.sel exact_sel exact_getitem last_result (cube (Some HRRR) [0; hours 6] [0; hours 1])
         {[ "forecast"%string := LModelRun {| ModelRun.time := t |} ]} = Ok run
    /\ data <$> ForecastIndex.variables run !! "valid_time"%string
       = Some (Values run_times)
    /\ data <$> ForecastIndex.variables res !! "valid_time"%string
       = Some (Values (take last [0; hours 6] ++ run_times)).
Proof.
  eexists.
  destruct (BestEstimate_tail_is_model_run exact_sel exact_getitem last_result
              (cube (Some HRRR) [0; hours 6] [0; hours 1])
              {| BestEstimate.asof := None |} _
              ltac:(discriminate) ltac:(discriminate)
              ltac:(apply increasing_NoDup; reflexivity)
              ltac:(vm_compute; reflexivity))
    as (last & t & run & run_times & H).
  exists last, t, run, run_times. split; [vm_compute; reflexivity | exact H].
Defined.
